(** * Dual-sink logger of [loggerfx]: level vocabulary, validator and factory

    A shallow embedding of [src/loggerfx/loggerfx.go].  The package builds on
    [go.uber.org/zap]; the parts of [zapcore] and [zap] that the factory
    plugs together are embedded next to it, each under the name it has in Go. *)

From Stdlib Require Import ZArith Lia Bool Ascii String.
From Stdlib Require Import PrimInt63 PrimFloat.
From stdpp Require Import base option list strings pretty gmap.

Local Open Scope Z_scope.
Local Open Scope string_scope.
Local Open Scope list_scope.

(** ** Go values the factory handles *)

(** [error]: a leaf error with its message (what the operating system or a
    library hands back), or the [*fmt.wrapError] that [fmt.Errorf] builds for
    a [%w] verb. *)
Inductive error :=
| errorString (s : string)
| wrapError (msg : string) (err : error).

(** [err.Error()] *)
Definition Error (e : error) : string :=
  match e with
  | errorString s => s
  | wrapError msg _ => msg
  end.

(** [errors.Unwrap(err)] *)
Definition Unwrap (e : error) : option error :=
  match e with
  | errorString _ => None
  | wrapError _ err => Some err
  end.

Module fmt.
(** [fmt.Errorf(prefix + "%w", err)] for a non-nil [err]: the message is
    the format with [err.Error()] in place of the verb, and the result
    unwraps to [err]. *)
Definition Errorf_w (prefix : string) (err : error) : error :=
  wrapError (prefix +:+ Error err) err.
End fmt.

(** How a Go call ends: it returns, it panics with a value, or the process
    exits ([os.Exit]). *)
Inductive Outcome (A : Type) :=
| Return (a : A)
| Panic (v : string)
| Exit (code : Z).
Arguments Return {A} a.
Arguments Panic {A} v.
Arguments Exit {A} code.

(** The value a nil pointer dereference panics with. *)
Definition nil_dereference : string :=
  "runtime error: invalid memory address or nil pointer dereference".

Module strings.
(** [strings.LastIndexByte(s, c)]; [None] stands for -1. *)
Fixpoint LastIndexByte_from (i : nat) (s : string) (c : ascii) : option nat :=
  match s with
  | EmptyString => None
  | String a s' =>
      match LastIndexByte_from (S i) s' c with
      | Some j => Some j
      | None => if decide (a = c) then Some i else None
      end
  end.
Definition LastIndexByte (s : string) (c : ascii) : option nat :=
  LastIndexByte_from 0 s c.

(** The slices [s[:n]] and [s[n:]], for [n] within the string. *)
Fixpoint take (n : nat) (s : string) : string :=
  match n, s with
  | S n', String a s' => String a (take n' s')
  | _, _ => EmptyString
  end.
Fixpoint drop (n : nat) (s : string) : string :=
  match n, s with
  | S n', String _ s' => drop n' s'
  | _, _ => s
  end.

(** [strings.Split(s, "/")] *)
Fixpoint split_slash_aux (cur : string) (s : string) : list string :=
  match s with
  | EmptyString => [String.rev cur]
  | String a s' =>
      if decide (a = "/"%char) then String.rev cur :: split_slash_aux EmptyString s'
      else split_slash_aux (String a cur) s'
  end.
Definition split_slash (s : string) : list string := split_slash_aux EmptyString s.

(** [strings.Join(elems, sep)] *)
Fixpoint Join (elems : list string) (sep : string) : string :=
  match elems with
  | [] => EmptyString
  | [e] => e
  | e :: rest => e +:+ sep +:+ Join rest sep
  end.

(** [strings.Split(s, sep)] for a separator of one byte. *)
Fixpoint Split_aux (sep : ascii) (cur : string) (s : string) : list string :=
  match s with
  | EmptyString => [String.rev cur]
  | String a s' =>
      if decide (a = sep) then String.rev cur :: Split_aux sep EmptyString s'
      else Split_aux sep (String a cur) s'
  end.
Definition Split (s : string) (sep : ascii) : list string := Split_aux sep EmptyString s.

(** [strings.ToLower(s)] on ASCII letters. *)
Definition lower_char (a : ascii) : ascii :=
  let n := nat_of_ascii a in
  if (65 <=? n)%nat && (n <=? 90)%nat then ascii_of_nat (n + 32) else a.
Fixpoint ToLower (s : string) : string :=
  match s with
  | EmptyString => EmptyString
  | String a s' => String (lower_char a) (ToLower s')
  end.
End strings.

Module path.
(** [path.Clean], computed element by element as its documentation states
    it: empty and [.] elements go, an inner [..] goes with the element
    before it, a [..] at the start of a rooted path goes, and the empty
    result is [.].  [stack] holds the elements kept so far, last first. *)
Fixpoint clean_elems (rooted : bool) (stack : list string) (elems : list string)
  : list string :=
  match elems with
  | [] => rev stack
  | e :: rest =>
      if decide (e = "") then clean_elems rooted stack rest
      else if decide (e = ".") then clean_elems rooted stack rest
      else if decide (e = "..") then
        match stack with
        | top :: below =>
            if decide (top = "..") then clean_elems rooted (e :: stack) rest
            else clean_elems rooted below rest
        | [] =>
            if rooted then clean_elems rooted stack rest
            else clean_elems rooted (e :: stack) rest
        end
      else clean_elems rooted (e :: stack) rest
  end.

Definition Clean (p : string) : string :=
  match p with
  | EmptyString => "."
  | String a _ =>
      let rooted := bool_decide (a = "/"%char) in
      let body := strings.Join (clean_elems rooted [] (strings.split_slash p)) "/" in
      let out := if rooted then "/" +:+ body else body in
      if decide (out = "") then "." else out
  end.

(** [path.Join(elem...)]: the non-empty elements joined by slashes, then
    cleaned; the empty string when there is none. *)
Definition Join (elem : list string) : string :=
  match filter (fun e => e <> "") elem with
  | [] => ""
  | es => Clean (strings.Join es "/")
  end.
End path.

Module time.
(** A [time.Time] as the civil date and clock reading its location gives
    it, to the nanosecond, with the zone offset in seconds east of UTC. *)
Record Time := {
  Year : Z; Month : Z; Day : Z;
  Hour : Z; Minute : Z; Second : Z;
  Nanosecond : Z;
  Offset : Z
}.

(** [isLeap(year)] and [daysBefore[month-1]], the days of a year that is
    not a leap year before the month. *)
Definition isLeap (year : Z) : bool :=
  Z.eqb (year mod 4) 0 && (negb (Z.eqb (year mod 100) 0) || Z.eqb (year mod 400) 0).
Definition daysBefore (month : Z) : Z :=
  nth (Z.to_nat (month - 1)) [0; 31; 59; 90; 120; 151; 181; 212; 243; 273; 304; 334] 0.

(** The days from 1970-01-01 to the first day of a year. *)
Definition daysToYear (year : Z) : Z :=
  let y := year - 1 in
  365 * y + y / 4 - y / 100 + y / 400 - 719162.

(** [t.Unix()], the seconds from 1970-01-01T00:00:00Z to the instant, as
    [time.Date] finds the instant of a civil time: the days to the year, to
    the month and to the day, the seconds of the day, less the zone offset. *)
Definition Unix (t : Time) : Z :=
  let d := daysToYear (Year t) + daysBefore (Month t) +
           (if isLeap (Year t) && Z.leb 3 (Month t) then 1 else 0) + (Day t - 1) in
  d * 86400 + Hour t * 3600 + Minute t * 60 + Second t - Offset t.

(** [t.UnixNano()], for an instant whose nanoseconds an [int64] holds. *)
Definition UnixNano (t : Time) : Z := Unix t * 1000000000 + Nanosecond t.

Fixpoint zeros (n : nat) : string :=
  match n with
  | O => EmptyString
  | S n' => String "0" (zeros n')
  end.

(** [appendInt(b, x, width)]: the decimal form of [x], zero-padded to
    [width] digits, behind a minus sign when [x] is negative. *)
Definition appendInt (x : Z) (width : nat) : string :=
  let digits := pretty (Z.abs x) in
  (if decide (x < 0) then "-" else "")
    +:+ zeros (width - String.length digits) +:+ digits.

(** [t.Format(time.RFC3339)], layout [2006-01-02T15:04:05Z07:00] *)
Definition Format_RFC3339 (t : Time) : string :=
  appendInt (Year t) 4 +:+ "-" +:+ appendInt (Month t) 2 +:+ "-" +:+
  appendInt (Day t) 2 +:+ "T" +:+ appendInt (Hour t) 2 +:+ ":" +:+
  appendInt (Minute t) 2 +:+ ":" +:+ appendInt (Second t) 2 +:+
  (if decide (Offset t = 0) then "Z"
   else
     let zone := Z.quot (Offset t) 60 in
     (if decide (zone < 0) then "-" else "+") +:+
     appendInt (Z.quot (Z.abs zone) 60) 2 +:+ ":" +:+
     appendInt (Z.rem (Z.abs zone) 60) 2).
End time.

Module runtime.
(** [runtime.Frame], the fields the logger reads. *)
Record Frame := {
  PC : Z;
  File : string;
  Line : Z;
  Function : string
}.
End runtime.

Module logger.
(** Modelled from the spec: package [scalpel/logger], which declares the
    console colors [DebugColor], [InfoColor], [WarnColor], [ErrorColor] and
    [FatalColor], is not under src/.  The spec gives debug, info, warn and
    error a color class each and one "fatal" class to the rest, so each
    [*color.Color] variable is represented by its name, a color class of
    its own. *)
Inductive Color := DebugColor | InfoColor | WarnColor | ErrorColor | FatalColor.

#[global] Instance Color_eq_dec : EqDecision Color.
Proof. solve_decision. Defined.
End logger.

(** ** Bytes, runes and floats *)

(** A byte of a string as a number. *)
Definition byte (a : ascii) : Z := Z.of_N (N_of_ascii a).

Module utf8.
Definition RuneError : Z := 65533.
Definition RuneSelf : Z := 128.

(** What the table [first] holds for a first byte: ASCII, an invalid first
    byte, or the size of the sequence with the range the second byte has to
    be in. *)
Inductive firstInfo :=
| as_
| xx
| lead (size : nat) (lo hi : Z).

(** [first[s0]]: ASCII below 0x80; 0xC2..0xDF start two bytes; 0xE0..0xEF
    three, with a narrower second byte after 0xE0 and 0xED; 0xF0..0xF4
    four, with a narrower second byte after 0xF0 and 0xF4; every other
    byte is invalid. *)
Definition first (s0 : Z) : firstInfo :=
  if Z.ltb s0 128 then as_
  else if Z.ltb s0 194 then xx
  else if Z.ltb s0 224 then lead 2 128 191
  else if Z.eqb s0 224 then lead 3 160 191
  else if Z.ltb s0 237 then lead 3 128 191
  else if Z.eqb s0 237 then lead 3 128 159
  else if Z.ltb s0 240 then lead 3 128 191
  else if Z.eqb s0 240 then lead 4 144 191
  else if Z.ltb s0 244 then lead 4 128 191
  else if Z.eqb s0 244 then lead 4 128 143
  else xx.

(** A byte outside [locb..hicb], the range of a continuation byte. *)
Definition not_continuation (b : Z) : bool := Z.ltb b 128 || Z.ltb 191 b.

(** [utf8.DecodeRuneInString(s)]: the rune and its width in bytes;
    [(RuneError, 1)] for an encoding that is invalid or cut short. *)
Definition DecodeRuneInString (s : string) : Z * nat :=
  match s with
  | EmptyString => (RuneError, 0%nat)
  | String a0 s1 =>
      let s0 := byte a0 in
      match first s0 with
      | as_ => (s0, 1%nat)
      | xx => (RuneError, 1%nat)
      | lead sz lo hi =>
          match s1 with
          | EmptyString => (RuneError, 1%nat)
          | String a1 s2 =>
              let b1 := byte a1 in
              if (String.length s <? sz)%nat then (RuneError, 1%nat)
              else if Z.ltb b1 lo || Z.ltb hi b1 then (RuneError, 1%nat)
              else if (sz <=? 2)%nat then
                (Z.lor (Z.shiftl (Z.land s0 31) 6) (Z.land b1 63), 2%nat)
              else
                match s2 with
                | EmptyString => (RuneError, 1%nat)
                | String a2 s3 =>
                    let b2 := byte a2 in
                    if not_continuation b2 then (RuneError, 1%nat)
                    else if (sz <=? 3)%nat then
                      (Z.lor (Z.lor (Z.shiftl (Z.land s0 15) 12)
                                    (Z.shiftl (Z.land b1 63) 6))
                             (Z.land b2 63), 3%nat)
                    else
                      match s3 with
                      | EmptyString => (RuneError, 1%nat)
                      | String a3 _ =>
                          let b3 := byte a3 in
                          if not_continuation b3 then (RuneError, 1%nat)
                          else
                            (Z.lor (Z.lor (Z.lor (Z.shiftl (Z.land s0 7) 18)
                                                 (Z.shiftl (Z.land b1 63) 12))
                                          (Z.shiftl (Z.land b2 63) 6))
                                   (Z.land b3 63), 4%nat)
                      end
                end
          end
      end
  end.
End utf8.

(** [float64(n)] for [n] an [int64] above the least one: the nearest
    float, ties to even. *)
Fixpoint uint63_of_positive (p : positive) : int :=
  match p with
  | xH => 1%uint63
  | xO p' => PrimInt63.lsl (uint63_of_positive p') 1%uint63
  | xI p' => PrimInt63.lor (PrimInt63.lsl (uint63_of_positive p') 1%uint63) 1%uint63
  end.
Definition float64_of_int64 (n : Z) : float :=
  match n with
  | Z0 => PrimFloat.zero
  | Zpos p => PrimFloat.of_uint63 (uint63_of_positive p)
  | Zneg p => PrimFloat.opp (PrimFloat.of_uint63 (uint63_of_positive p))
  end.

(** ** What the encoders produce *)

(** A string as an encoder appends it: as it is, or wrapped by
    [color.Sprintf] in the escape codes of a color. *)
Inductive text :=
| plain (s : string)
| colored (c : logger.Color) (s : string).

Module color.
(** [c.Sprintf(format, a...)], given the formatted string.  The method
    reads [c.noColor], so a nil receiver panics. *)
Definition Sprintf (c : option logger.Color) (formatted : string) : Outcome text :=
  match c with
  | Some c => Return (colored c formatted)
  | None => Panic nil_dereference
  end.
End color.

(** What an encoder callback hands to its [PrimitiveArrayEncoder]:
    [AppendString], or [AppendFloat64] of a time in seconds since the epoch
    (the float is [zapcore.epoch_seconds] of the time, below). *)
Inductive appended :=
| AppendString (s : text)
| AppendEpochSeconds (t : time.Time).

(** The bytes of one [Write] call, by what they encode: a JSON object with
    its members in order, a console line with its columns, message and stack
    trace, or one of the two lines zap prints about its own failures. *)
Inductive buffer :=
| JSONLine (members : list (string * appended))
| ConsoleLine (columns : list appended) (message : option string) (stack : string)
| WriteErrorLine (t : time.Time) (errs : list error)
| CheckErrorLine (t : time.Time).

(** ** The world a logger runs in *)

(** An output stream: the standard error of the process, or a file by name. *)
Inductive Stream :=
| Stderr
| NamedFile (name : string).

#[global] Instance Stream_eq_dec : EqDecision Stream.
Proof. solve_decision. Defined.

(** The clock, the faults of the file system and of the streams (the error a
    call meets, if any), the directories [MkdirAll] has made and every write
    that went through, oldest first. *)
Record World := {
  clock : time.Time;
  mkdir_failure : string -> option error;
  write_failure : Stream -> option error;
  made : list string;
  written : list (Stream * buffer)
}.

(** A Go call: it runs in a world, ends in an [Outcome] and leaves a world. *)
Definition M (A : Type) : Type := World -> Outcome A * World.

#[global] Instance M_ret : MRet M := fun A a w => (Return a, w).

#[global] Instance M_bind : MBind M := fun A B f m w =>
  match m w with
  | (Return a, w') => f a w'
  | (Panic v, w') => (Panic v, w')
  | (Exit code, w') => (Exit code, w')
  end.

Definition panic {A : Type} (v : string) : M A := fun w => (Panic v, w).
Definition exit {A : Type} (code : Z) : M A := fun w => (Exit code, w).

(** A pure computation that may panic, run as a call. *)
Definition lift {A : Type} (o : Outcome A) : M A := fun w => (o, w).

Module os.
Definition ModePerm : Z := 511.

(** [os.MkdirAll(path, perm)] *)
Definition MkdirAll (path : string) (perm : Z) : M (option error) := fun w =>
  match mkdir_failure w path with
  | Some e => (Return (Some e), w)
  | None =>
      (Return None,
       {| clock := clock w; mkdir_failure := mkdir_failure w;
          write_failure := write_failure w; made := made w ++ [path];
          written := written w |})
  end.

(** One [Write] on a stream: all of the buffer, or an error and nothing. *)
Definition write (st : Stream) (b : buffer) : M (option error) := fun w =>
  match write_failure w st with
  | Some e => (Return (Some e), w)
  | None =>
      (Return None,
       {| clock := clock w; mkdir_failure := mkdir_failure w;
          write_failure := write_failure w; made := made w;
          written := written w ++ [(st, b)] |})
  end.
End os.

(** [time.Now()] *)
Definition time_Now : M time.Time := fun w => (Return (clock w), w).

Module lumberjack.
(** [lumberjack.Logger], with the one field the factory sets. *)
Record Logger := { Filename : string }.

(** [Logger.Write]: appends to the file [Filename] (rotation, which
    renames the file once it is full, is left out). *)
Definition Write (l : Logger) (b : buffer) : M (option error) :=
  os.write (NamedFile (Filename l)) b.
End lumberjack.

(** ** [zapcore] *)

Module zapcore.

(** [type Level int8].  The only arithmetic on levels in what follows is
    [FatalLevel + 1], far from the ends of the type. *)
Definition Level := Z.

Definition DebugLevel : Level := -1.
Definition InfoLevel : Level := 0.
Definition WarnLevel : Level := 1.
Definition ErrorLevel : Level := 2.
Definition DPanicLevel : Level := 3.
Definition PanicLevel : Level := 4.
Definition FatalLevel : Level := 5.

(** [func (l Level) String() string] *)
Definition Level_String (l : Level) : string :=
  if decide (l = DebugLevel) then "debug"
  else if decide (l = InfoLevel) then "info"
  else if decide (l = WarnLevel) then "warn"
  else if decide (l = ErrorLevel) then "error"
  else if decide (l = DPanicLevel) then "dpanic"
  else if decide (l = PanicLevel) then "panic"
  else if decide (l = FatalLevel) then "fatal"
  else "Level(" +:+ pretty l +:+ ")".

(** [func (l Level) CapitalString() string] *)
Definition Level_CapitalString (l : Level) : string :=
  if decide (l = DebugLevel) then "DEBUG"
  else if decide (l = InfoLevel) then "INFO"
  else if decide (l = WarnLevel) then "WARN"
  else if decide (l = ErrorLevel) then "ERROR"
  else if decide (l = DPanicLevel) then "DPANIC"
  else if decide (l = PanicLevel) then "PANIC"
  else if decide (l = FatalLevel) then "FATAL"
  else "LEVEL(" +:+ pretty l +:+ ")".

(** [func (l Level) Enabled(lvl Level) bool { return lvl >= l }] *)
Definition Level_Enabled (l lvl : Level) : bool := bool_decide (lvl >= l).

(** [EntryCaller] *)
Record EntryCaller := {
  Defined : bool;
  PC : Z;
  File : string;
  Line : Z;
  Function : string
}.

(** The zero [EntryCaller]. *)
Definition no_caller : EntryCaller :=
  {| Defined := false; PC := 0; File := ""; Line := 0; Function := "" |}.

(** [func (ec EntryCaller) FullPath() string] *)
Definition FullPath (ec : EntryCaller) : string :=
  if Defined ec then File ec +:+ ":" +:+ pretty (Line ec) else "undefined".

(** [func (ec EntryCaller) TrimmedPath() string]: the file from its
    penultimate separator on, or the full path when it has fewer than two. *)
Definition TrimmedPath (ec : EntryCaller) : string :=
  if Defined ec then
    match strings.LastIndexByte (File ec) "/"%char with
    | None => FullPath ec
    | Some idx =>
        match strings.LastIndexByte (strings.take idx (File ec)) "/"%char with
        | None => FullPath ec
        | Some idx' =>
            strings.drop (S idx') (File ec) +:+ ":" +:+ pretty (Line ec)
        end
    end
  else "undefined".

(** [Entry]; the logger of the factory has no name, so [LoggerName] is
    left out. *)
Record Entry := {
  Entry_Level : Level;
  Entry_Time : time.Time;
  Entry_Message : string;
  Entry_Caller : EntryCaller;
  Entry_Stack : string
}.

(** [EncoderConfig], the fields that bear on a record without structured
    fields; the callbacks return what they append. *)
Record EncoderConfig := {
  MessageKey : string;
  LevelKey : string;
  TimeKey : string;
  CallerKey : string;
  FunctionKey : string;
  StacktraceKey : string;
  EncodeLevel : Level -> Outcome appended;
  EncodeTime : time.Time -> appended;
  EncodeCaller : EntryCaller -> appended
}.

Definition OmitKey : string := "".

(** [LowercaseLevelEncoder], [EpochTimeEncoder], [RFC3339TimeEncoder] and
    [ShortCallerEncoder] *)
Definition LowercaseLevelEncoder (l : Level) : Outcome appended :=
  Return (AppendString (plain (Level_String l))).
Definition EpochTimeEncoder (t : time.Time) : appended := AppendEpochSeconds t.
Definition RFC3339TimeEncoder (t : time.Time) : appended :=
  AppendString (plain (time.Format_RFC3339 t)).
Definition ShortCallerEncoder (ec : EntryCaller) : appended :=
  AppendString (plain (TrimmedPath ec)).


(** The number [EpochTimeEncoder] hands to [AppendFloat64]:
    [float64(t.UnixNano()) / float64(time.Second)]. *)
Definition epoch_seconds (t : time.Time) : float :=
  PrimFloat.div (float64_of_int64 (time.UnixNano t)) (float64_of_int64 1000000000).

(** *** The strings of the JSON encoder *)

Definition quote : ascii := ascii_of_nat 34.
Definition backslash : ascii := ascii_of_nat 92.

(** [_hex = "0123456789abcdef"] and its digit for a number below 16. *)
Definition _hex : string := "0123456789abcdef".
Definition hex_digit (n : Z) : ascii :=
  match String.get (Z.to_nat n) _hex with
  | Some c => c
  | None => "0"%char
  end.

(** What [safeAppendStringLike] puts for a byte below [RuneSelf]: the byte
    itself from 0x20 on, but a backslash before a backslash and before a
    quote; [\n], [\r] and [\t] for these three; [\u00] and two hexadecimal
    digits for any other byte below 0x20. *)
Definition escape_ascii (a : ascii) : string :=
  let b := byte a in
  if Z.leb 32 b && negb (bool_decide (a = backslash)) && negb (bool_decide (a = quote))
  then String a EmptyString
  else if bool_decide (a = backslash) || bool_decide (a = quote)
  then String backslash (String a EmptyString)
  else if Z.eqb b 10 then String backslash "n"
  else if Z.eqb b 13 then String backslash "r"
  else if Z.eqb b 9 then String backslash "t"
  else String backslash
         ("u00" +:+ String (hex_digit (Z.shiftr b 4))
                      (String (hex_digit (Z.land b 15)) EmptyString)).

(** [enc.safeAddString(s)], from the byte at hand on, [skip] bytes of a
    rune just decoded still to copy.  A byte from [RuneSelf] on starts a
    rune: a valid one is copied whole, an invalid byte becomes the six
    characters [\ufffd]. *)
Fixpoint safeAddString_from (skip : nat) (s : string) : string :=
  match s with
  | EmptyString => EmptyString
  | String a s' =>
      match skip with
      | S k => String a (safeAddString_from k s')
      | O =>
          if Z.leb utf8.RuneSelf (byte a) then
            let (r, size) := utf8.DecodeRuneInString s in
            if negb (Z.eqb r utf8.RuneError) || negb (Nat.eqb size 1)
            then String a (safeAddString_from (size - 1) s')
            else String backslash "ufffd" +:+ safeAddString_from 0 s'
          else escape_ascii a +:+ safeAddString_from 0 s'
      end
  end.
Definition safeAddString (s : string) : string := safeAddString_from 0 s.

(** A value as the JSON encoder writes it: a string between quotes, given
    as what is between them, or a number, given as the [float64] whose
    shortest decimal form [AppendFloat64] writes. *)
Inductive json_value :=
| json_string (between_quotes : string)
| json_number (f : float).

(** [enc.AppendString(s)] and [enc.AppendFloat64(f)] of the JSON encoder.
    The bytes of a colored text are not known (the colors are not under
    src/), so there is no value for one. *)
Definition jsonEncoder_Append (a : appended) : option json_value :=
  match a with
  | AppendString (plain s) => Some (json_string (safeAddString s))
  | AppendString (colored _ _) => None
  | AppendEpochSeconds t => Some (json_number (epoch_seconds t))
  end.

(** [enc.addKey(key)] and the value after it: one member of the object. *)
Definition jsonEncoder_member (m : string * appended) : option (string * json_value) :=
  match jsonEncoder_Append m.2 with
  | Some v => Some (safeAddString m.1, v)
  | None => None
  end.

Inductive Encoder :=
| jsonEncoder (cfg : EncoderConfig)
| consoleEncoder (cfg : EncoderConfig).

Definition NewJSONEncoder (cfg : EncoderConfig) : Encoder := jsonEncoder cfg.
Definition NewConsoleEncoder (cfg : EncoderConfig) : Encoder := consoleEncoder cfg.

(** [when key x]: [x] unless the key is [OmitKey]. *)
Definition when {A : Type} (key : string) (x : list A) : list A :=
  if decide (key = "") then [] else x.

(** The caller members shared by both encoders: nothing for an undefined
    caller, else the encoded caller and the function name, each under its key. *)
Definition caller_part {A : Type} (cfg : EncoderConfig) (ent : Entry)
    (mk : string -> appended -> A) : list A :=
  if Defined (Entry_Caller ent) then
    when (CallerKey cfg) [mk (CallerKey cfg) (EncodeCaller cfg (Entry_Caller ent))] ++
    when (FunctionKey cfg)
      [mk (FunctionKey cfg) (AppendString (plain (Function (Entry_Caller ent))))]
  else [].

(** The level member: nothing under [OmitKey], else what [EncodeLevel]
    appends, or its panic. *)
Definition level_part (cfg : EncoderConfig) (ent : Entry) : Outcome (list appended) :=
  if decide (LevelKey cfg = "") then Return []
  else
    match EncodeLevel cfg (Entry_Level ent) with
    | Return lv => Return [lv]
    | Panic v => Panic v
    | Exit code => Exit code
    end.

(** [EncodeEntry(ent, nil)].  Both encoders return a nil error on an entry
    without fields; a panic of a callback passes through.  The time of an
    entry is what [time.Now()] gave, never the zero time.  The JSON object
    has level, time, caller, message and stack trace in this order; the
    console line has time, level and caller as columns, then the message,
    then the stack trace. *)
Definition EncodeEntry (enc : Encoder) (ent : Entry) : Outcome buffer :=
  match enc with
  | jsonEncoder cfg =>
      match level_part cfg ent with
      | Return lv =>
          Return (JSONLine (
            map (pair (LevelKey cfg)) lv ++
            when (TimeKey cfg) [(TimeKey cfg, EncodeTime cfg (Entry_Time ent))] ++
            caller_part cfg ent pair ++
            when (MessageKey cfg)
              [(MessageKey cfg, AppendString (plain (Entry_Message ent)))] ++
            (if decide (Entry_Stack ent = "") then []
             else when (StacktraceKey cfg)
                    [(StacktraceKey cfg, AppendString (plain (Entry_Stack ent)))])))
      | Panic v => Panic v
      | Exit code => Exit code
      end
  | consoleEncoder cfg =>
      match level_part cfg ent with
      | Return lv =>
          Return (ConsoleLine
            (when (TimeKey cfg) [EncodeTime cfg (Entry_Time ent)] ++
             lv ++
             caller_part cfg ent (fun _ v => v))
            (if decide (MessageKey cfg = "") then None else Some (Entry_Message ent))
            (if decide (StacktraceKey cfg = "") then "" else Entry_Stack ent))
      | Panic v => Panic v
      | Exit code => Exit code
      end
  end.

(** [WriteSyncer]: an [*os.File], a writer behind [AddSync], or a syncer
    behind the mutex of [Lock]. *)
Inductive WriteSyncer :=
| File_ (f : Stream)
| writerWrapper (w : lumberjack.Logger)
| lockedWriteSyncer (ws : WriteSyncer).

(** [AddSync(w)]: a [*lumberjack.Logger] has no [Sync], so it is wrapped. *)
Definition AddSync (w : lumberjack.Logger) : WriteSyncer := writerWrapper w.

(** [Lock(ws)]: no second lock around a locked syncer. *)
Definition Lock (ws : WriteSyncer) : WriteSyncer :=
  match ws with
  | lockedWriteSyncer _ => ws
  | _ => lockedWriteSyncer ws
  end.

(** [ws.Write(bs)]; one caller at a time, the mutex of a locked syncer
    adds nothing to the write below it. *)
Fixpoint WriteSyncer_Write (ws : WriteSyncer) (b : buffer) : M (option error) :=
  match ws with
  | File_ f => os.write f b
  | writerWrapper w => lumberjack.Write w b
  | lockedWriteSyncer ws' => WriteSyncer_Write ws' b
  end.

(** [ioCore], with a [Level] as its [LevelEnabler]. *)
Record ioCore := {
  enab : Level;
  enc : Encoder;
  out : WriteSyncer
}.

Definition NewCore (enc : Encoder) (ws : WriteSyncer) (enab : Level) : ioCore :=
  {| enab := enab; enc := enc; out := ws |}.

(** [CheckWriteAction], the three the logger uses. *)
Inductive CheckWriteAction := WriteThenNoop | WriteThenPanic | WriteThenFatal.

(** [CheckedEntry]; a nil [*CheckedEntry] is [None]. *)
Record CheckedEntry := {
  ce_Entry : Entry;
  ce_ErrorOutput : option WriteSyncer;
  ce_after : CheckWriteAction;
  ce_cores : list ioCore
}.

Definition new_checked (ent : Entry) : CheckedEntry :=
  {| ce_Entry := ent; ce_ErrorOutput := None; ce_after := WriteThenNoop;
     ce_cores := [] |}.

(** [CheckedEntry.AddCore(ent, core)] *)
Definition AddCore (ce : option CheckedEntry) (ent : Entry) (core : ioCore)
  : option CheckedEntry :=
  let ce := default (new_checked ent) ce in
  Some {| ce_Entry := ce_Entry ce; ce_ErrorOutput := ce_ErrorOutput ce;
          ce_after := ce_after ce; ce_cores := ce_cores ce ++ [core] |}.

(** [CheckedEntry.After(ent, hook)] *)
Definition After (ce : option CheckedEntry) (ent : Entry) (hook : CheckWriteAction)
  : option CheckedEntry :=
  let ce := default (new_checked ent) ce in
  Some {| ce_Entry := ce_Entry ce; ce_ErrorOutput := ce_ErrorOutput ce;
          ce_after := hook; ce_cores := ce_cores ce |}.

Definition ioCore_Enabled (c : ioCore) (lvl : Level) : bool :=
  Level_Enabled (enab c) lvl.

(** [ioCore.Check(ent, ce)] *)
Definition ioCore_Check (c : ioCore) (ent : Entry) (ce : option CheckedEntry)
  : option CheckedEntry :=
  if ioCore_Enabled c (Entry_Level ent) then AddCore ce ent c else ce.

(** [ioCore.Write(ent, fields)]: encode, then write; an error of the write
    is returned.  The [Sync] after an entry above [ErrorLevel] has its error
    dropped and writes nothing. *)
Definition ioCore_Write (c : ioCore) (ent : Entry) : M (option error) :=
  buf ← lift (EncodeEntry (enc c) ent);
  WriteSyncer_Write (out c) buf.

(** A [Core]: what [NewTee] returns for no, one or several [ioCore]s. *)
Inductive Core :=
| nopCore
| oneCore (c : ioCore)
| multiCore (mc : list ioCore).

Definition NewTee (cores : list ioCore) : Core :=
  match cores with
  | [] => nopCore
  | [c] => oneCore c
  | _ => multiCore cores
  end.

Definition Core_Enabled (core : Core) (lvl : Level) : bool :=
  match core with
  | nopCore => false
  | oneCore c => ioCore_Enabled c lvl
  | multiCore mc => existsb (fun c => ioCore_Enabled c lvl) mc
  end.

Definition Core_Check (core : Core) (ent : Entry) (ce : option CheckedEntry)
  : option CheckedEntry :=
  match core with
  | nopCore => ce
  | oneCore c => ioCore_Check c ent ce
  | multiCore mc => fold_left (fun ce c => ioCore_Check c ent ce) mc ce
  end.

(** The loop of [CheckedEntry.Write] over the cores that took the
    entry: each one writes, whatever the ones before it returned; the
    errors are gathered. *)
Fixpoint write_cores (cores : list ioCore) (ent : Entry) : M (list error) :=
  match cores with
  | [] => mret []
  | c :: rest =>
      err ← ioCore_Write c ent;
      errs ← write_cores rest ent;
      mret (from_option (fun e => [e]) [] err ++ errs)
  end.

(** [CheckedEntry.Write(fields...)]: the cores write; an error among them
    is reported on [ErrorOutput], the error of that report dropped; then the
    terminal action.  Nothing is returned to the caller. *)
Definition CheckedEntry_Write (ce : option CheckedEntry) : M unit :=
  match ce with
  | None => mret tt
  | Some ce =>
      errs ← write_cores (ce_cores ce) (ce_Entry ce);
      _ ← match errs, ce_ErrorOutput ce with
          | _ :: _, Some eo =>
              WriteSyncer_Write eo (WriteErrorLine (Entry_Time (ce_Entry ce)) errs)
          | _, _ => mret None
          end;
      match ce_after ce with
      | WriteThenNoop => mret tt
      | WriteThenPanic => panic (Entry_Message (ce_Entry ce))
      | WriteThenFatal => exit 1
      end
  end.

End zapcore.

(** ** [zap] *)

Module zap.
Import zapcore.

(** [Logger], the fields the factory and a log call touch. *)
Record Logger := {
  core : Core;
  development : bool;
  addCaller : bool;
  errorOutput : WriteSyncer;
  addStack : Level;
  callerSkip : Z
}.

Definition Option := Logger -> Logger.

(** [AddCaller()], that is [WithCaller(true)] *)
Definition AddCaller : Option := fun log =>
  {| core := core log; development := development log; addCaller := true;
     errorOutput := errorOutput log; addStack := addStack log;
     callerSkip := callerSkip log |}.

(** [New(core, options...)] for a non-nil core: errors go to the locked
    standard error, stack traces start above [FatalLevel]. *)
Definition New (core : Core) (options : list Option) : Logger :=
  fold_left (fun log opt => opt log) options
    {| core := core; development := false; addCaller := false;
       errorOutput := Lock (File_ Stderr); addStack := FatalLevel + 1;
       callerSkip := 0 |}.

Record SugaredLogger := { base : Logger }.

(** [log.Sugar()] *)
Definition Sugar (log : Logger) : SugaredLogger :=
  {| base :=
       {| core := core log; development := development log;
          addCaller := addCaller log; errorOutput := errorOutput log;
          addStack := addStack log; callerSkip := callerSkip log + 2 |} |}.

(** [NewProductionEncoderConfig()] *)
Definition NewProductionEncoderConfig : EncoderConfig :=
  {| MessageKey := "msg"; LevelKey := "level"; TimeKey := "ts";
     CallerKey := "caller"; FunctionKey := OmitKey;
     StacktraceKey := "stacktrace";
     EncodeLevel := LowercaseLevelEncoder;
     EncodeTime := EpochTimeEncoder;
     EncodeCaller := ShortCallerEncoder |}.

Definition newline : string := String (ascii_of_nat 10) "".
Definition tab : string := String (ascii_of_nat 9) "".

(** One frame of a stack trace: the function, then the file and line on
    an indented line of their own. *)
Definition format_frame (f : runtime.Frame) : string :=
  runtime.Function f +:+ newline +:+ tab +:+ runtime.File f +:+ ":" +:+
  pretty (runtime.Line f).

(** [stackfmt.FormatStack(stack)]: the frames that remain, one after the
    other, without the last of them (it is [runtime.main] or
    [runtime.goexit]). *)
Definition FormatStack (remaining : list runtime.Frame) : list string :=
  map format_frame (removelast remaining).

(** The stack trace [check] attaches: [FormatFrame] of the first frame and,
    when there are more, [FormatStack] of the others, a line break between
    two frames. *)
Definition stack_trace (frame : runtime.Frame) (rest : list runtime.Frame) : string :=
  strings.Join
    (format_frame frame ::
     match rest with
     | [] => []
     | _ :: _ => FormatStack rest
     end) newline.

Definition set_ErrorOutput (ce : CheckedEntry) (eo : WriteSyncer) : CheckedEntry :=
  {| ce_Entry := ce_Entry ce; ce_ErrorOutput := Some eo;
     ce_after := ce_after ce; ce_cores := ce_cores ce |}.

Definition set_Caller_Stack (ce : CheckedEntry) (caller : EntryCaller)
    (stack : string) : CheckedEntry :=
  {| ce_Entry :=
       {| Entry_Level := Entry_Level (ce_Entry ce);
          Entry_Time := Entry_Time (ce_Entry ce);
          Entry_Message := Entry_Message (ce_Entry ce);
          Entry_Caller := caller; Entry_Stack := stack |};
     ce_ErrorOutput := ce_ErrorOutput ce;
     ce_after := ce_after ce; ce_cores := ce_cores ce |}.

(** [log.check(lvl, msg)].  [stack] is the call stack at the log call, the
    calling function first, as [stacktrace.Capture] walks it after the
    skipped frames of the logger itself; the caller is read off its first
    frame, the stack trace, when the level asks for one, off all of it. *)
Definition Logger_check (log : Logger) (lvl : Level) (msg : string)
    (stack : list runtime.Frame) : M (option CheckedEntry) :=
  if bool_decide (lvl < DPanicLevel) && negb (Core_Enabled (core log) lvl)
  then mret None
  else
    now ← time_Now;
    let ent := {| Entry_Level := lvl; Entry_Time := now; Entry_Message := msg;
                  Entry_Caller := no_caller; Entry_Stack := "" |} in
    let ce := Core_Check (core log) ent None in
    let ce' :=
      if decide (lvl = PanicLevel) then After ce ent WriteThenPanic
      else if decide (lvl = FatalLevel) then After ce ent WriteThenFatal
      else if decide (lvl = DPanicLevel) then
        (if development log then After ce ent WriteThenPanic else ce)
      else ce in
    match ce, ce' with
    | Some _, Some ce1 =>
        let ce2 := set_ErrorOutput ce1 (errorOutput log) in
        let stacked := Level_Enabled (addStack log) lvl in
        if negb (addCaller log) && negb stacked then mret (Some ce2)
        else
          match stack with
          | [] =>
              _ ← (if addCaller log
                   then WriteSyncer_Write (errorOutput log) (CheckErrorLine now)
                   else mret None);
              mret (Some ce2)
          | frame :: rest =>
              let caller :=
                if addCaller log then
                  {| Defined := bool_decide (runtime.PC frame <> 0);
                     PC := runtime.PC frame; File := runtime.File frame;
                     Line := runtime.Line frame;
                     Function := runtime.Function frame |}
                else Entry_Caller (ce_Entry ce2) in
              let trace :=
                if stacked then stack_trace frame rest
                else Entry_Stack (ce_Entry ce2) in
              mret (Some (set_Caller_Stack ce2 caller trace))
          end
    | _, _ => mret ce'
    end.

(** [s.log(lvl, "", args, nil)], with [msg] the message the arguments
    print to. *)
Definition SugaredLogger_log (s : SugaredLogger) (lvl : Level) (msg : string)
    (stack : list runtime.Frame) : M unit :=
  if bool_decide (lvl < DPanicLevel) && negb (Core_Enabled (core (base s)) lvl)
  then mret tt
  else
    ce ← Logger_check (base s) lvl msg stack;
    CheckedEntry_Write ce.

Definition Debug (s : SugaredLogger) := SugaredLogger_log s DebugLevel.
Definition Info (s : SugaredLogger) := SugaredLogger_log s InfoLevel.
Definition Warn (s : SugaredLogger) := SugaredLogger_log s WarnLevel.
Definition Error_ (s : SugaredLogger) := SugaredLogger_log s ErrorLevel.
Definition DPanic (s : SugaredLogger) := SugaredLogger_log s DPanicLevel.
Definition Panic_ (s : SugaredLogger) := SugaredLogger_log s PanicLevel.
Definition Fatal (s : SugaredLogger) := SugaredLogger_log s FatalLevel.

(** [s.Desugar()] *)
Definition Desugar (s : SugaredLogger) : Logger :=
  {| core := core (base s); development := development (base s);
     addCaller := addCaller (base s); errorOutput := errorOutput (base s);
     addStack := addStack (base s); callerSkip := callerSkip (base s) - 2 |}.

(** [log.Log(lvl, msg)], and so [log.Info(msg)] and the other leveled
    methods of a [Logger]: [check], then [Write] on an entry that is not nil. *)
Definition Logger_Log (log : Logger) (lvl : Level) (msg : string)
    (stack : list runtime.Frame) : M unit :=
  ce ← Logger_check log lvl msg stack;
  CheckedEntry_Write ce.

End zap.

Module validator.
(** [validate.RegisterValidation(tag, fn)] for a tag that is neither empty
    nor reserved: the rule is stored under the tag, no error.  A
    [*validator.Validate] is taken as its table of named rules on string
    fields. *)
Definition RegisterValidation (validate : gmap string (string -> bool))
    (tag : string) (fn : string -> bool)
  : gmap string (string -> bool) * option error :=
  (<[tag := fn]> validate, None).

(** The rule [required] on a string field: the field is not the zero value. *)
Definition required (s : string) : bool := negb (bool_decide (s = "")).
End validator.

Module viper.
(** A value of the registry: a leaf, here always a string, or a nested
    [map[string]any]. *)
#[warnings="-register-all"]
Inductive value :=
| Str (s : string)
| Map (m : gmap string value).

(** [deepSearch(m, path)] and the assignment [deepestMap[lastKey] = value]
    that follows it: the maps along the path are kept, a missing one is
    made, and a leaf in the way gives place to a new map. *)
Fixpoint set_deep (path : list string) (lastKey : string) (v : value)
    (m : gmap string value) : gmap string value :=
  match path with
  | [] => <[lastKey := v]> m
  | k :: rest =>
      let m3 := match m !! k with
                | Some (Map m3) => m3
                | _ => ∅
                end in
      <[k := Map (set_deep rest lastKey v m3)]> m
  end.

(** [viper.SetDefault(key, value)] on the registry of defaults, with the
    key delimiter [.] and no alias: the key in lower case is split into a
    path, whose last element names the leaf. *)
Definition SetDefault (key : string) (v : string) (defaults : gmap string value)
  : gmap string value :=
  let key := strings.ToLower key in
  let path := strings.Split key "."%char in
  let lastKey := strings.ToLower (List.last path "") in
  set_deep (removelast path) lastKey (Str v) defaults.

(** [v.searchMap(source, path)]; nil is [None]. *)
Fixpoint searchMap (source : gmap string value) (path : list string) : option value :=
  match path with
  | [] => Some (Map source)
  | k :: rest =>
      match source !! k with
      | Some next =>
          match rest with
          | [] => Some next
          | _ :: _ =>
              match next with
              | Map m => searchMap m rest
              | Str _ => None
              end
          end
      | None => None
      end
  end.
End viper.

(** ** [loggerfx]: the level vocabulary and its validator *)

Module loggerfx.

(** [type LogLevel string] *)
Definition LogLevel := string.

Definition DebugLevel : LogLevel := zapcore.Level_String zapcore.DebugLevel.
Definition InfoLevel : LogLevel := zapcore.Level_String zapcore.InfoLevel.
Definition WarnLevel : LogLevel := zapcore.Level_String zapcore.WarnLevel.
Definition ErrorLevel : LogLevel := zapcore.Level_String zapcore.ErrorLevel.
Definition DPanicLevel : LogLevel := zapcore.Level_String zapcore.DPanicLevel.
Definition PanicLevel : LogLevel := zapcore.Level_String zapcore.PanicLevel.
Definition FatalLevel : LogLevel := zapcore.Level_String zapcore.FatalLevel.

(** [var logLevelMap = map[LogLevel]zapcore.Level{...}] *)
Definition logLevelMap : gmap string zapcore.Level :=
  <[DebugLevel := zapcore.DebugLevel]>
  (<[InfoLevel := zapcore.InfoLevel]>
  (<[WarnLevel := zapcore.WarnLevel]>
  (<[ErrorLevel := zapcore.ErrorLevel]>
  (<[DPanicLevel := zapcore.DPanicLevel]>
  (<[PanicLevel := zapcore.PanicLevel]>
  (<[FatalLevel := zapcore.FatalLevel]> ∅)))))).

(** [_, ok := logLevelMap[LogLevel(logLevel)]; return ok].  The argument is
    the string held by the validated field. *)
Definition validateLogLevel (logLevel : string) : bool :=
  match logLevelMap !! logLevel with
  | Some _ => true
  | None => false
  end.

(** [logLevelMap[k]] read with one result: the zero [Level] when [k] is
    not a key. *)
Definition logLevelMap_index (k : string) : zapcore.Level :=
  default 0 (logLevelMap !! k).

(** [RegisterLogLevelValidation]: the validator with the rule, or the error
    of the registration. *)
Definition RegisterLogLevelValidation (validate : gmap string (string -> bool))
  : option (gmap string (string -> bool)) * option error :=
  match validator.RegisterValidation validate "loglevel" validateLogLevel with
  | (_, Some err) => (None, Some err)
  | (validate', None) => (Some validate', None)
  end.

(** [LoggerConfig] and its two anonymous structs. *)
Record FileConfig := { File_Level : LogLevel; File_Path : string }.
Record ConsoleConfig := { Console_Level : LogLevel }.
Record LoggerConfig := { File : FileConfig; Console : ConsoleConfig }.

(** [colorMap := map[zapcore.Level]*color.Color{...}] *)
Definition colorMap : gmap Z logger.Color :=
  <[zapcore.DebugLevel := logger.DebugColor]>
  (<[zapcore.InfoLevel := logger.InfoColor]>
  (<[zapcore.WarnLevel := logger.WarnColor]>
  (<[zapcore.ErrorLevel := logger.ErrorColor]>
  (<[zapcore.DPanicLevel := logger.FatalColor]>
  (<[zapcore.FatalLevel := logger.FatalColor]>
  (<[zapcore.PanicLevel := logger.FatalColor]> ∅)))))).

(** The [EncodeLevel] closure of the console: the level as [[INFO]], in
    the color the map holds for it; a level the map lacks reads nil. *)
Definition consoleEncodeLevel (l : zapcore.Level) : Outcome appended :=
  match color.Sprintf (colorMap !! l) ("[" +:+ zapcore.Level_CapitalString l +:+ "]") with
  | Return s => Return (AppendString s)
  | Panic v => Panic v
  | Exit code => Exit code
  end.

(** The [EncodeCaller] closure of the console: the trimmed file path. *)
Definition consoleEncodeCaller (ec : zapcore.EntryCaller) : appended :=
  AppendString (plain (zapcore.TrimmedPath ec)).

Definition consoleEncoderConfig : zapcore.EncoderConfig :=
  let cfg := zap.NewProductionEncoderConfig in
  {| zapcore.MessageKey := zapcore.MessageKey cfg;
     zapcore.LevelKey := zapcore.LevelKey cfg;
     zapcore.TimeKey := zapcore.TimeKey cfg;
     zapcore.CallerKey := zapcore.CallerKey cfg;
     zapcore.FunctionKey := zapcore.FunctionKey cfg;
     zapcore.StacktraceKey := zapcore.StacktraceKey cfg;
     zapcore.EncodeLevel := consoleEncodeLevel;
     zapcore.EncodeTime := zapcore.RFC3339TimeEncoder;
     zapcore.EncodeCaller := consoleEncodeCaller |}.

(** [New(config)]; a nil [config] is [None].  The result is the pair Go
    returns, a nil logger or error being [None]. *)
Definition New (config : option LoggerConfig)
  : M (option zap.SugaredLogger * option error) :=
  match config with
  | None => panic nil_dereference
  | Some config =>
      err ← os.MkdirAll (File_Path (File config)) os.ModePerm;
      match err with
      | Some err =>
          mret (None,
                Some (fmt.Errorf_w "error in creating log file folder for writing: " err))
      | None =>
          let fileWriter :=
            zapcore.AddSync
              {| lumberjack.Filename :=
                   path.Join [File_Path (File config); "server.log"] |} in
          let fileLogLevel := logLevelMap_index (File_Level (File config)) in
          let consoleLogLevel := logLevelMap_index (Console_Level (Console config)) in
          let fileEncoderConfig := zap.NewProductionEncoderConfig in
          let fileEncoder := zapcore.NewJSONEncoder fileEncoderConfig in
          let consoleEncoder := zapcore.NewConsoleEncoder consoleEncoderConfig in
          let core :=
            zapcore.NewTee
              [zapcore.NewCore fileEncoder fileWriter fileLogLevel;
               zapcore.NewCore consoleEncoder (zapcore.Lock (zapcore.File_ Stderr))
                 consoleLogLevel] in
          mret (Some (zap.Sugar (zap.New core [zap.AddCaller])), None)
      end
  end.

(** The [validate] tags of [LoggerConfig]: [required,loglevel] on both
    levels, [required] on the path, the rules of one tag all having to hold.
    The [required] tags on the two structs hold whenever a field of theirs
    is not empty. *)
Definition validate_config (config : LoggerConfig) : bool :=
  validator.required (File_Level (File config)) &&
  validateLogLevel (File_Level (File config)) &&
  validator.required (File_Path (File config)) &&
  validator.required (Console_Level (Console config)) &&
  validateLogLevel (Console_Level (Console config)).

(** [init()], on the registry of defaults.  [package_name] is what
    [config.GetPackageName()] returns; package [scalpel/config] is not under
    src/. *)
Definition init (package_name : string) (defaults : gmap string viper.value)
  : gmap string viper.value :=
  viper.SetDefault "logs.console.level" InfoLevel
    (viper.SetDefault "logs.file.level" InfoLevel
       (viper.SetDefault "logs.file.path" (path.Join ["/var/log"; package_name])
          defaults)).

(** The function [Module] gives to [fx.WithLogger]: the logger of the
    [fxevent.ZapLogger] that prints the events of fx. *)
Definition fx_event_logger (logger : zap.SugaredLogger) : zap.Logger :=
  zap.Desugar logger.

End loggerfx.

(** ** [fx] and [infofx]: the hooks of the life cycle *)

Module fx.
(** The function of a hook.  Its arguments stand for where it runs: its
    own frame at a given line of its source, and the frames of its callers. *)
Definition HookFunc : Type :=
  (Z -> runtime.Frame) -> list runtime.Frame -> M (option error).

(** [fx.Hook]; a nil function is [None]. *)
Record Hook := {
  OnStart : option HookFunc;
  OnStop : option HookFunc
}.

(** [lifecycle.Append(hook)]: the hooks so far, then this one. *)
Definition Append (lifecycle : list Hook) (hook : Hook) : list Hook :=
  lifecycle ++ [hook].
End fx.

Module infofx.
(** What [GetInfo] returns.  [GetInfo] and its result type are in a file of
    the package that is not under src/: each field is taken as the text the
    logger prints for it, and the result of the call is an argument. *)
Record Info := {
  Name : string;
  Platform : string;
  Runtime : string;
  HostName : string;
  BuildCommit : string;
  BuildDate : string
}.

(** [InfoParams] *)
Record InfoParams := {
  Lifecycle : list fx.Hook;
  Logger : zap.SugaredLogger
}.

(** The [OnStart] function of [DisplayInfo]; the numbers are the lines of
    the log calls in [infofx.go]. *)
Definition DisplayInfo_OnStart (GetInfo : Info * option error) (p : InfoParams)
  : fx.HookFunc := fun here callers =>
  _ ← zap.Info (Logger p) "Starting application:" (here 20 :: callers);
  let (info, err) := GetInfo in
  match err with
  | Some err => mret (Some err)
  | None =>
      _ ← zap.Info (Logger p) (Name info) (here 25 :: callers);
      _ ← zap.Info (Logger p) (Platform info) (here 26 :: callers);
      _ ← zap.Info (Logger p) (Runtime info) (here 27 :: callers);
      _ ← zap.Info (Logger p) (HostName info) (here 28 :: callers);
      _ ← zap.Info (Logger p) (BuildCommit info) (here 29 :: callers);
      _ ← zap.Info (Logger p) (BuildDate info) (here 30 :: callers);
      mret None
  end.

(** [DisplayInfo(p)]: the life cycle with the hook appended. *)
Definition DisplayInfo (GetInfo : Info * option error) (p : InfoParams)
  : list fx.Hook :=
  fx.Append (Lifecycle p)
    {| fx.OnStart := Some (DisplayInfo_OnStart GetInfo p); fx.OnStop := None |}.

(** The [OnStop] function of [cleanup]. *)
Definition cleanup_OnStop (p : InfoParams) : fx.HookFunc := fun here callers =>
  _ ← zap.Info (Logger p) "Shutting down gracefully, press Ctrl+C again to force"
        (here 40 :: callers);
  mret None.

(** [cleanup(p)] *)
Definition cleanup (p : InfoParams) : list fx.Hook :=
  fx.Append (Lifecycle p)
    {| fx.OnStart := None; fx.OnStop := Some (cleanup_OnStop p) |}.
End infofx.

(** ** Reading the factory's result

    Names for what the specification speaks of: the vocabulary, the two
    sinks the factory builds, and the records a log call leaves on their
    streams. *)

(** The seven canonical names of the vocabulary, lowest severity first. *)
Definition canonical_names : list string :=
  ["debug"; "info"; "warn"; "error"; "dpanic"; "panic"; "fatal"].

(** The seven levels of the vocabulary, lowest severity first. *)
Definition vocabulary : list zapcore.Level :=
  [zapcore.DebugLevel; zapcore.InfoLevel; zapcore.WarnLevel; zapcore.ErrorLevel;
   zapcore.DPanicLevel; zapcore.PanicLevel; zapcore.FatalLevel].

(** The place of a name in the order debug < info < warn < error < dpanic <
    panic < fatal, counted from 0; 7 for a name outside the vocabulary. *)
Fixpoint index_of (name : string) (names : list string) : nat :=
  match names with
  | [] => 0
  | n :: rest => if decide (n = name) then 0 else S (index_of name rest)
  end.
Definition severity (name : string) : nat := index_of name canonical_names.

Definition file_stream (cfg : loggerfx.LoggerConfig) : Stream :=
  NamedFile (path.Join [loggerfx.File_Path (loggerfx.File cfg); "server.log"]).

Definition file_threshold (cfg : loggerfx.LoggerConfig) : zapcore.Level :=
  loggerfx.logLevelMap_index (loggerfx.File_Level (loggerfx.File cfg)).

Definition console_threshold (cfg : loggerfx.LoggerConfig) : zapcore.Level :=
  loggerfx.logLevelMap_index (loggerfx.Console_Level (loggerfx.Console cfg)).

(** The two cores and the logger that [New] builds from a configuration
    ([New_success] below). *)
Definition file_core (cfg : loggerfx.LoggerConfig) : zapcore.ioCore :=
  {| zapcore.enab := file_threshold cfg;
     zapcore.enc := zapcore.jsonEncoder zap.NewProductionEncoderConfig;
     zapcore.out :=
       zapcore.writerWrapper
         {| lumberjack.Filename :=
              path.Join [loggerfx.File_Path (loggerfx.File cfg); "server.log"] |} |}.

Definition console_core (cfg : loggerfx.LoggerConfig) : zapcore.ioCore :=
  {| zapcore.enab := console_threshold cfg;
     zapcore.enc := zapcore.consoleEncoder loggerfx.consoleEncoderConfig;
     zapcore.out := zapcore.lockedWriteSyncer (zapcore.File_ Stderr) |}.

Definition built (cfg : loggerfx.LoggerConfig) : zap.SugaredLogger :=
  {| zap.base :=
       {| zap.core := zapcore.multiCore [file_core cfg; console_core cfg];
          zap.development := false; zap.addCaller := true;
          zap.errorOutput := zapcore.lockedWriteSyncer (zapcore.File_ Stderr);
          zap.addStack := 6; zap.callerSkip := 2 |} |}.

(** The world after a [MkdirAll] that went through. *)
Definition after_mkdir (w : World) (p : string) : World :=
  {| clock := clock w; mkdir_failure := mkdir_failure w;
     write_failure := write_failure w; made := made w ++ [p];
     written := written w |}.

(** How a log call at a level ends once its records are written: a panic
    with the message at [PanicLevel], exit status 1 at [FatalLevel], a plain
    return at every other level. *)
Definition ending (lvl : zapcore.Level) (msg : string) : Outcome unit :=
  if decide (lvl = zapcore.PanicLevel) then Panic msg
  else if decide (lvl = zapcore.FatalLevel) then Exit 1
  else Return tt.

Definition terminal (lvl : zapcore.Level) (msg : string) : M unit :=
  lift (ending lvl msg).

Definition after_of (lvl : zapcore.Level) : zapcore.CheckWriteAction :=
  if decide (lvl = zapcore.PanicLevel) then zapcore.WriteThenPanic
  else if decide (lvl = zapcore.FatalLevel) then zapcore.WriteThenFatal
  else zapcore.WriteThenNoop.

(** The caller a log call records for a call stack. *)
Definition caller_of (stack : list runtime.Frame) : zapcore.EntryCaller :=
  match stack with
  | [] => zapcore.no_caller
  | frame :: _ =>
      {| zapcore.Defined := bool_decide (runtime.PC frame <> 0);
         zapcore.PC := runtime.PC frame; zapcore.File := runtime.File frame;
         zapcore.Line := runtime.Line frame;
         zapcore.Function := runtime.Function frame |}
  end.

(** The entry a log call hands to the cores. *)
Definition entry_of (lvl : zapcore.Level) (now : time.Time) (msg : string)
    (stack : list runtime.Frame) : zapcore.Entry :=
  {| zapcore.Entry_Level := lvl; zapcore.Entry_Time := now;
     zapcore.Entry_Message := msg; zapcore.Entry_Caller := caller_of stack;
     zapcore.Entry_Stack :=
       match stack with
       | [] => ""
       | frame :: rest =>
           if zapcore.Level_Enabled 6 lvl
           then zap.stack_trace frame rest
           else ""
       end |}.

(** The record of an entry in the file: level, time, caller, message. *)
Definition file_record (ent : zapcore.Entry) : buffer :=
  JSONLine
    ([("level", AppendString (plain (zapcore.Level_String (zapcore.Entry_Level ent))));
      ("ts", AppendEpochSeconds (zapcore.Entry_Time ent))] ++
     (if zapcore.Defined (zapcore.Entry_Caller ent)
      then [("caller", AppendString (plain (zapcore.TrimmedPath (zapcore.Entry_Caller ent))))]
      else []) ++
     [("msg", AppendString (plain (zapcore.Entry_Message ent)))] ++
     (if decide (zapcore.Entry_Stack ent = "") then []
      else [("stacktrace", AppendString (plain (zapcore.Entry_Stack ent)))])).

(** The line of an entry on the console, its level tag in color [c]: time,
    tag and caller in columns, then the message. *)
Definition console_record (c : logger.Color) (ent : zapcore.Entry) : buffer :=
  ConsoleLine
    ([AppendString (plain (time.Format_RFC3339 (zapcore.Entry_Time ent)));
      AppendString
        (colored c ("[" +:+ zapcore.Level_CapitalString (zapcore.Entry_Level ent) +:+ "]"))] ++
     (if zapcore.Defined (zapcore.Entry_Caller ent)
      then [AppendString (plain (zapcore.TrimmedPath (zapcore.Entry_Caller ent)))]
      else []))
    (Some (zapcore.Entry_Message ent))
    (zapcore.Entry_Stack ent).

Definition is_console_line (b : buffer) : bool :=
  match b with ConsoleLine _ _ _ => true | _ => false end.

Definition is_json_line (b : buffer) : bool :=
  match b with JSONLine _ => true | _ => false end.

(** The buffers among [l] that went to stream [st]. *)
Definition on_stream (st : Stream) (l : list (Stream * buffer)) : list buffer :=
  omap (fun sb => if decide (sb.1 = st) then Some sb.2 else None) l.

(** What a call that took the world from [w] to [w'] wrote. *)
Definition added (w w' : World) : list (Stream * buffer) :=
  drop (length (written w)) (written w').

(** The records a call delivered to the file sink and to the console sink. *)
Definition file_records (cfg : loggerfx.LoggerConfig) (w w' : World) : list buffer :=
  filter (fun b => is_json_line b = true) (on_stream (file_stream cfg) (added w w')).

Definition console_records (w w' : World) : list buffer :=
  filter (fun b => is_console_line b = true) (on_stream Stderr (added w w')).

(** The cores that take an entry of a level. *)
Definition cores_for (cfg : loggerfx.LoggerConfig) (lvl : zapcore.Level)
  : list zapcore.ioCore :=
  (if zapcore.Level_Enabled (file_threshold cfg) lvl then [file_core cfg] else []) ++
  (if zapcore.Level_Enabled (console_threshold cfg) lvl then [console_core cfg] else []).

Definition errs_of (e1 e2 : option error) : list error :=
  from_option (fun e => [e]) [] e1 ++ from_option (fun e => [e]) [] e2.

(** A log call on the logger of [New], step by step ([log_by_steps] below):
    nothing but the ending when neither sink takes the level; else the
    clock is read, a missing call stack is reported, the file sink and the
    console sink write in this order, each if it takes the level, their
    errors are reported on the standard error, and the call ends. *)
Definition log_steps (cfg : loggerfx.LoggerConfig) (lvl : zapcore.Level)
    (msg : string) (stack : list runtime.Frame) : M unit :=
  let ef := zapcore.Level_Enabled (file_threshold cfg) lvl in
  let ec := zapcore.Level_Enabled (console_threshold cfg) lvl in
  if negb ef && negb ec then terminal lvl msg
  else
    now ← time_Now;
    _ ← match stack with
        | [] => os.write Stderr (CheckErrorLine now)
        | _ :: _ => mret None
        end;
    let ent := entry_of lvl now msg stack in
    e1 ← (if ef then os.write (file_stream cfg) (file_record ent) else mret None);
    e2 ← (if ec then
            match loggerfx.colorMap !! lvl with
            | Some c => os.write Stderr (console_record c ent)
            | None => panic nil_dereference
            end
          else mret None);
    _ ← match errs_of e1 e2 with
        | [] => mret None
        | errs => os.write Stderr (WriteErrorLine now errs)
        end;
    terminal lvl msg.

(** The world after one write on a stream. *)
Definition put (st : Stream) (b : buffer) (w : World) : World :=
  match write_failure w st with
  | Some _ => w
  | None =>
      {| clock := clock w; mkdir_failure := mkdir_failure w;
         write_failure := write_failure w; made := made w;
         written := written w ++ [(st, b)] |}
  end.

(** What one write leaves on a stream: the buffer, or nothing on a fault. *)
Definition wrote (st : Stream) (b : buffer) (w : World) : list (Stream * buffer) :=
  match write_failure w st with
  | Some _ => []
  | None => [(st, b)]
  end.

(** A name in capitals: each lower-case ASCII letter by its upper-case one. *)
Definition upper_char (a : ascii) : ascii :=
  let n := nat_of_ascii a in
  if (97 <=? n)%nat && (n <=? 122)%nat then ascii_of_nat (n - 32) else a.
Fixpoint to_upper (s : string) : string :=
  match s with
  | EmptyString => EmptyString
  | String a s' => String (upper_char a) (to_upper s')
  end.

(** The tag of a level name on the console. *)
Definition tag (name : string) : string := "[" +:+ to_upper name +:+ "]".

(** The world a log call at a level of color [c] leaves. *)
Definition logged (cfg : loggerfx.LoggerConfig) (lvl : zapcore.Level) (c : logger.Color)
    (msg : string) (stack : list runtime.Frame) (w : World) : World :=
  let ef := zapcore.Level_Enabled (file_threshold cfg) lvl in
  let ec := zapcore.Level_Enabled (console_threshold cfg) lvl in
  if negb ef && negb ec then w
  else
    let ent := entry_of lvl (clock w) msg stack in
    let w1 := match stack with
              | [] => put Stderr (CheckErrorLine (clock w)) w
              | _ :: _ => w
              end in
    let w2 := if ef then put (file_stream cfg) (file_record ent) w1 else w1 in
    let w3 := if ec then put Stderr (console_record c ent) w2 else w2 in
    match errs_of (if ef then write_failure w (file_stream cfg) else None)
                  (if ec then write_failure w Stderr else None) with
    | [] => w3
    | errs => put Stderr (WriteErrorLine (clock w) errs) w3
    end.

(** What that call writes, in order. *)
Definition log_trace (cfg : loggerfx.LoggerConfig) (lvl : zapcore.Level) (c : logger.Color)
    (msg : string) (stack : list runtime.Frame) (w : World) : list (Stream * buffer) :=
  let ef := zapcore.Level_Enabled (file_threshold cfg) lvl in
  let ec := zapcore.Level_Enabled (console_threshold cfg) lvl in
  if negb ef && negb ec then []
  else
    let ent := entry_of lvl (clock w) msg stack in
    match stack with
    | [] => wrote Stderr (CheckErrorLine (clock w)) w
    | _ :: _ => []
    end ++
    (if ef then wrote (file_stream cfg) (file_record ent) w else []) ++
    (if ec then wrote Stderr (console_record c ent) w else []) ++
    match errs_of (if ef then write_failure w (file_stream cfg) else None)
                  (if ec then write_failure w Stderr else None) with
    | [] => []
    | errs => wrote Stderr (WriteErrorLine (clock w) errs) w
    end.

(** *** Shapes of the console columns *)

(** A class of characters of a pattern: a decimal digit, one given
    character, or a sign. *)
Inductive cls :=
| digit
| lit (a : ascii)
| sign.

Definition in_cls (c : cls) (a : ascii) : bool :=
  match c with
  | digit => (48 <=? nat_of_ascii a)%nat && (nat_of_ascii a <=? 57)%nat
  | lit b => bool_decide (a = b)
  | sign => bool_decide (a = "+"%char) || bool_decide (a = "-"%char)
  end.

Fixpoint matches (p : list cls) (s : string) : bool :=
  match p, s with
  | [], EmptyString => true
  | c :: p', String a s' => in_cls c a && matches p' s'
  | _, _ => false
  end.

(** RFC 3339 [date-time] without a fraction of a second:
    [yyyy-mm-ddThh:mm:ss] and then [Z] or a numeric offset [+hh:mm]. *)
Definition full_date_time : list cls :=
  [digit; digit; digit; digit; lit "-"; digit; digit; lit "-"; digit; digit; lit "T";
   digit; digit; lit ":"; digit; digit; lit ":"; digit; digit].

Definition time_numoffset : list cls := [sign; digit; digit; lit ":"; digit; digit].

Definition is_rfc3339 (s : string) : bool :=
  matches (full_date_time ++ [lit "Z"]) s || matches (full_date_time ++ time_numoffset) s.

(** A civil time as [time.Now()] yields it in our era. *)
Definition civil (t : time.Time) : Prop :=
  0 <= time.Year t <= 9999 /\ 1 <= time.Month t <= 12 /\ 1 <= time.Day t <= 31 /\
  0 <= time.Hour t <= 23 /\ 0 <= time.Minute t <= 59 /\ 0 <= time.Second t <= 59 /\
  -86400 < time.Offset t < 86400.

(** No path separator in a string. *)
Fixpoint no_slash (s : string) : bool :=
  match s with
  | EmptyString => true
  | String a s' => negb (bool_decide (a = "/"%char)) && no_slash s'
  end.

(** *** A process and its log calls over time *)

(** What happens to a process that logs: a log call, a stream that starts
    or stops rejecting writes, the clock moving on. *)
Inductive event :=
| Log (lvl : zapcore.Level) (msg : string) (stack : list runtime.Frame)
| Break (st : Stream) (e : error)
| Mend (st : Stream)
| Tick (t : time.Time).

Definition set_failure (st : Stream) (f : option error) (w : World) : World :=
  {| clock := clock w; mkdir_failure := mkdir_failure w;
     write_failure := fun st' => if decide (st' = st) then f else write_failure w st';
     made := made w; written := written w |}.

Definition set_clock (t : time.Time) (w : World) : World :=
  {| clock := t; mkdir_failure := mkdir_failure w;
     write_failure := write_failure w; made := made w; written := written w |}.

(** The events of a process in order, on one logger.  A call that exits
    ends the process; after a call that panics the process goes on, as when
    the caller recovers. *)
Fixpoint run (s : zap.SugaredLogger) (evs : list event) (w : World) : World :=
  match evs with
  | [] => w
  | Log lvl msg stack :: rest =>
      match zap.SugaredLogger_log s lvl msg stack w with
      | (Exit _, w') => w'
      | (_, w') => run s rest w'
      end
  | Break st e :: rest => run s rest (set_failure st (Some e) w)
  | Mend st :: rest => run s rest (set_failure st None w)
  | Tick t :: rest => run s rest (set_clock t w)
  end.

(** Every line the console sink has written so far. *)
Definition console_output (w : World) : list buffer :=
  filter (fun b => is_console_line b = true) (on_stream Stderr (written w)).

(** The same events without the faults of files, and the same world with
    every file taking writes. *)
Definition is_file_fault (ev : event) : bool :=
  match ev with
  | Break (NamedFile _) _ => true
  | _ => false
  end.

Fixpoint without_file_faults (evs : list event) : list event :=
  match evs with
  | [] => []
  | ev :: rest =>
      if is_file_fault ev then without_file_faults rest
      else ev :: without_file_faults rest
  end.

Definition files_mended (w : World) : World :=
  {| clock := clock w; mkdir_failure := mkdir_failure w;
     write_failure := fun st => match st with
                                | Stderr => write_failure w Stderr
                                | NamedFile _ => None
                                end;
     made := made w; written := written w |}.

(** The log calls among the events are at levels of the vocabulary. *)
Definition in_vocabulary (ev : event) : Prop :=
  match ev with
  | Log lvl _ _ => lvl ∈ vocabulary
  | _ => True
  end.

(** Two worlds the console cannot tell apart. *)
Definition same_console (w1 w2 : World) : Prop :=
  clock w1 = clock w2 /\ write_failure w1 Stderr = write_failure w2 Stderr /\
  console_output w1 = console_output w2.

(** *** Paths, element by element *)

(** An element of a path that [Clean] keeps as it is: a name without a
    separator, other than the empty name, [.] and [..]. *)
Definition plain_element (e : string) : bool :=
  no_slash e && negb (bool_decide (e = "")) && negb (bool_decide (e = ".")) &&
  negb (bool_decide (e = "..")).

(** What [Clean] keeps of a path: names without a separator, none of them
    empty or [.]. *)
Definition kept (e : string) : Prop := no_slash e = true /\ e <> "" /\ e <> ".".

(** *** The writes of a call, one by one *)

(** [w1] holds what [w] holds and then writes that all satisfy [P]. *)
Definition grown (P : Stream * buffer -> Prop) (w w1 : World) : Prop :=
  exists tr, written w1 = written w ++ tr /\ Forall P tr.

(** Where a log call may write: a line on the standard error, or the
    record of the call in the log file. *)
Definition to_a_sink (cfg : loggerfx.LoggerConfig) (ent : zapcore.Entry)
    (sb : Stream * buffer) : Prop :=
  (sb.1 = Stderr /\ is_json_line sb.2 = false) \/
  (sb.1 = file_stream cfg /\ sb.2 = file_record ent).

(** *** The hooks of [infofx] on the logger of [New] *)

(** The log calls of the [OnStart] hook of [DisplayInfo], as the line of
    each call in [infofx.go] and its message: the banner, and after a
    [GetInfo] without error the six fields. *)
Definition info_lines (GetInfo : infofx.Info * option error) : list (Z * string) :=
  (20, "Starting application:") ::
  match GetInfo.2 with
  | Some _ => []
  | None =>
      [(25, infofx.Name GetInfo.1); (26, infofx.Platform GetInfo.1);
       (27, infofx.Runtime GetInfo.1); (28, infofx.HostName GetInfo.1);
       (29, infofx.BuildCommit GetInfo.1); (30, infofx.BuildDate GetInfo.1)]
  end.

(** The one log call of the [OnStop] hook of [cleanup]. *)
Definition shutdown_line : Z * string :=
  (40, "Shutting down gracefully, press Ctrl+C again to force").

(** The entry an info call at a line of a hook makes of a message. *)
Definition info_entry (w : World) (here : Z -> runtime.Frame)
    (callers : list runtime.Frame) (call : Z * string) : zapcore.Entry :=
  entry_of zapcore.InfoLevel (clock w) call.2 (here call.1 :: callers).

(** What a sink gets of the records of info events: all of them when its
    threshold lets info through and its stream takes writes, none else. *)
Definition delivered (threshold : zapcore.Level) (fault : option error)
    (records : list buffer) : list buffer :=
  if zapcore.Level_Enabled threshold zapcore.InfoLevel then
    match fault with
    | None => records
    | Some _ => []
    end
  else [].

(** The world after info calls in a row on the logger of [New]. *)
Fixpoint logged_all (cfg : loggerfx.LoggerConfig) (here : Z -> runtime.Frame)
    (callers : list runtime.Frame) (calls : list (Z * string)) (w : World) : World :=
  match calls with
  | [] => w
  | call :: rest =>
      logged_all cfg here callers rest
        (logged cfg zapcore.InfoLevel logger.InfoColor call.2 (here call.1 :: callers) w)
  end.

(** *** Reading a JSON record back *)

(** The object the JSON encoder writes for a buffer: its members in order,
    each key and value as written. *)
Definition json_written (b : buffer) : option (list (string * zapcore.json_value)) :=
  match b with
  | JSONLine members => mapM zapcore.jsonEncoder_member members
  | _ => None
  end.

(** A string that is valid UTF-8, read rune by rune as the encoder reads
    it: no byte from [RuneSelf] on at the start of a rune is one that
    [DecodeRuneInString] rejects. *)
Fixpoint ValidString_from (skip : nat) (s : string) : bool :=
  match s with
  | EmptyString => true
  | String a s' =>
      match skip with
      | S k => ValidString_from k s'
      | O =>
          if Z.leb utf8.RuneSelf (byte a) then
            let (r, size) := utf8.DecodeRuneInString s in
            (negb (Z.eqb r utf8.RuneError) || negb (Nat.eqb size 1)) &&
            ValidString_from (size - 1) s'
          else ValidString_from 0 s'
      end
  end.
Definition ValidString (s : string) : bool := ValidString_from 0 s.

(** The first [k] bytes of a string are there and are bytes from 0x80 on. *)
Fixpoint high_bytes (k : nat) (s : string) : bool :=
  match k, s with
  | O, _ => true
  | S k', String a s' => Z.leb 128 (byte a) && high_bytes k' s'
  | S _, EmptyString => false
  end.

(** A string escaped byte by byte: what [safeAddString] makes of a string
    that is valid UTF-8. *)
Fixpoint escape_each (s : string) : string :=
  match s with
  | EmptyString => EmptyString
  | String a s' =>
      (if Z.leb utf8.RuneSelf (byte a) then String a EmptyString
       else zapcore.escape_ascii a)
      +:+ escape_each s'
  end.

(** The value of a hexadecimal digit. *)
Definition hex_value (c : ascii) : option Z :=
  let n := byte c in
  if Z.leb 48 n && Z.leb n 57 then Some (n - 48)
  else if Z.leb 97 n && Z.leb n 102 then Some (n - 87)
  else if Z.leb 65 n && Z.leb n 70 then Some (n - 55)
  else None.

Definition ascii_of_Z (n : Z) : ascii := ascii_of_N (Z.to_N n).

(** The UTF-8 bytes of a code point of the basic plane; none for half of
    a surrogate pair. *)
Definition encode_rune (cp : Z) : option string :=
  if Z.ltb cp 128 then Some (String (ascii_of_Z cp) EmptyString)
  else if Z.ltb cp 2048 then
    Some (String (ascii_of_Z (Z.lor 192 (Z.shiftr cp 6)))
            (String (ascii_of_Z (Z.lor 128 (Z.land cp 63))) EmptyString))
  else if Z.leb 55296 cp && Z.leb cp 57343 then None
  else
    Some (String (ascii_of_Z (Z.lor 224 (Z.shiftr cp 12)))
            (String (ascii_of_Z (Z.lor 128 (Z.land (Z.shiftr cp 6) 63)))
               (String (ascii_of_Z (Z.lor 128 (Z.land cp 63))) EmptyString))).

(** The character after a backslash, for the escapes of two characters. *)
Definition simple_escape (e : ascii) : option ascii :=
  if bool_decide (e = zapcore.quote) then Some zapcore.quote
  else if bool_decide (e = zapcore.backslash) then Some zapcore.backslash
  else if bool_decide (e = "/"%char) then Some "/"%char
  else if bool_decide (e = "b"%char) then Some (ascii_of_nat 8)
  else if bool_decide (e = "f"%char) then Some (ascii_of_nat 12)
  else if bool_decide (e = "n"%char) then Some (ascii_of_nat 10)
  else if bool_decide (e = "r"%char) then Some (ascii_of_nat 13)
  else if bool_decide (e = "t"%char) then Some (ascii_of_nat 9)
  else None.

(** A reader of JSON strings (RFC 8259): the text a string stands for,
    given what is between its quotes.  A bare quote or control character is
    no JSON; an escape is read as its character, [\uXXXX] as the UTF-8
    bytes of the code point. *)
Fixpoint json_unquote (body : string) : option string :=
  match body with
  | EmptyString => Some EmptyString
  | String a rest =>
      if bool_decide (a = zapcore.backslash) then
        match rest with
        | EmptyString => None
        | String e rest' =>
            if bool_decide (e = "u"%char) then
              match rest' with
              | String h1 (String h2 (String h3 (String h4 rest''))) =>
                  match hex_value h1, hex_value h2, hex_value h3, hex_value h4 with
                  | Some d1, Some d2, Some d3, Some d4 =>
                      match encode_rune (((d1 * 16 + d2) * 16 + d3) * 16 + d4),
                            json_unquote rest'' with
                      | Some bytes, Some tail => Some (bytes +:+ tail)
                      | _, _ => None
                      end
                  | _, _, _, _ => None
                  end
              | _ => None
              end
            else
              match simple_escape e, json_unquote rest' with
              | Some c, Some tail => Some (String c tail)
              | _, _ => None
              end
        end
      else if bool_decide (a = zapcore.quote) || Z.ltb (byte a) 32 then None
      else
        match json_unquote rest with
        | Some tail => Some (String a tail)
        | None => None
        end
  end.

(** ** Sample inputs *)

Definition sample_time : time.Time :=
  {| time.Year := 2026; time.Month := 10; time.Day := 31;
     time.Hour := 9; time.Minute := 5; time.Second := 7; time.Nanosecond := 0;
     time.Offset := 3600 |}.

Definition denied : error := errorString "mkdir /var/log/app: permission denied".

Definition read_only : error := errorString "write /var/log/app/server.log: read-only file system".

(** A world where everything works, and one where no directory can be made. *)
Definition open_world : World :=
  {| clock := sample_time; mkdir_failure := fun _ => None;
     write_failure := fun _ => None; made := []; written := [] |}.

Definition sealed_world : World :=
  {| clock := sample_time; mkdir_failure := fun _ => Some denied;
     write_failure := fun _ => None; made := []; written := [] |}.

(** File sink from error, console sink from debug. *)
Definition sample_config : loggerfx.LoggerConfig :=
  {| loggerfx.File :=
       {| loggerfx.File_Level := "error"; loggerfx.File_Path := "/var/log/app" |};
     loggerfx.Console := {| loggerfx.Console_Level := "debug" |} |}.

(** A configuration that never went through validation. *)
Definition loose_config : loggerfx.LoggerConfig :=
  {| loggerfx.File :=
       {| loggerfx.File_Level := "verbose"; loggerfx.File_Path := "/var/log/app" |};
     loggerfx.Console := {| loggerfx.Console_Level := "Info" |} |}.

Definition sample_stack : list runtime.Frame :=
  [{| runtime.PC := 4242; runtime.File := "/home/dev/go/src/app/main.go";
      runtime.Line := 17; runtime.Function := "main.main" |};
   {| runtime.PC := 4100; runtime.File := "/usr/local/go/src/runtime/proc.go";
      runtime.Line := 283; runtime.Function := "runtime.main" |}].

(** The log file breaks, then an error and an info message are logged. *)
Definition sample_events : list event :=
  [Break (NamedFile "/var/log/app/server.log") read_only;
   Log zapcore.ErrorLevel "disk is gone" sample_stack;
   Log zapcore.InfoLevel "still here" sample_stack].

(** Both sinks from fatal. *)
Definition quiet_config : loggerfx.LoggerConfig :=
  {| loggerfx.File :=
       {| loggerfx.File_Level := "fatal"; loggerfx.File_Path := "/var/log/app" |};
     loggerfx.Console := {| loggerfx.Console_Level := "fatal" |} |}.

(** Both sinks from info, as the defaults have it. *)
Definition default_config : loggerfx.LoggerConfig :=
  {| loggerfx.File :=
       {| loggerfx.File_Level := "info"; loggerfx.File_Path := "/var/log/arsenal" |};
     loggerfx.Console := {| loggerfx.Console_Level := "info" |} |}.

Definition closed_pipe : error := errorString "write /dev/stderr: broken pipe".

(** A world whose log file rejects writes, and one where the standard
    error does too. *)
Definition file_broken_world : World :=
  set_failure (NamedFile "/var/log/app/server.log") (Some read_only) open_world.

Definition all_broken_world : World :=
  set_failure Stderr (Some closed_pipe) file_broken_world.

(** Defaults registered before those of the logger. *)
Definition sample_defaults : gmap string viper.value :=
  viper.SetDefault "logs.file.maxsize" "100" (viper.SetDefault "server.port" "8080" ∅).

Definition sample_info : infofx.Info :=
  {| infofx.Name := "arsenal"; infofx.Platform := "linux/amd64";
     infofx.Runtime := "go1.21.0"; infofx.HostName := "build-host";
     infofx.BuildCommit := "0123abc"; infofx.BuildDate := "2026-10-30" |}.

(** The frame of a hook of [infofx] at a line, and the frames of fx below. *)
Definition sample_here (line : Z) : runtime.Frame :=
  {| runtime.PC := 5000 + line;
     runtime.File := "/home/dev/go/src/arsenal/infofx/infofx.go";
     runtime.Line := line; runtime.Function := "infofx.DisplayInfo.func1" |}.

Definition sample_callers : list runtime.Frame :=
  [{| runtime.PC := 4300; runtime.File := "/home/dev/go/pkg/mod/go.uber.org/fx/lifecycle.go";
      runtime.Line := 150; runtime.Function := "fx.runStartHook" |}].

(** The sample time one nanosecond later. *)
Definition sample_time_later : time.Time :=
  {| time.Year := 2026; time.Month := 10; time.Day := 31;
     time.Hour := 9; time.Minute := 5; time.Second := 7; time.Nanosecond := 1;
     time.Offset := 3600 |}.

(** Two messages of one byte each, neither of them UTF-8. *)
Definition stray_byte_ff : string := String (ascii_of_nat 255) EmptyString.
Definition stray_byte_fe : string := String (ascii_of_nat 254) EmptyString.

(** ** Properties *)

(** *** The level map and the color map *)

Lemma logLevelMap_lookup_Some (s : string) (l : zapcore.Level) :
  loggerfx.logLevelMap !! s = Some l <->
  (s = "debug" /\ l = -1) \/ (s = "info" /\ l = 0) \/ (s = "warn" /\ l = 1) \/
  (s = "error" /\ l = 2) \/ (s = "dpanic" /\ l = 3) \/ (s = "panic" /\ l = 4) \/
  (s = "fatal" /\ l = 5).
Proof.
  unfold loggerfx.logLevelMap.
  rewrite !lookup_insert_Some, lookup_empty.
  change loggerfx.DebugLevel with "debug". change loggerfx.InfoLevel with "info".
  change loggerfx.WarnLevel with "warn". change loggerfx.ErrorLevel with "error".
  change loggerfx.DPanicLevel with "dpanic". change loggerfx.PanicLevel with "panic".
  change loggerfx.FatalLevel with "fatal".
  unfold zapcore.DebugLevel, zapcore.InfoLevel, zapcore.WarnLevel, zapcore.ErrorLevel,
    zapcore.DPanicLevel, zapcore.PanicLevel, zapcore.FatalLevel.
  split.
  - intros H. repeat (destruct H as [[-> <-] | [_ H]]; [tauto |]). discriminate.
  - intros H. repeat (destruct H as [[-> ->] | H]; [naive_solver |]).
    destruct H as [-> ->]. naive_solver.
Qed.

Lemma validateLogLevel_canonical (s : string) :
  loggerfx.validateLogLevel s = true <-> s ∈ canonical_names.
Proof.
  unfold loggerfx.validateLogLevel, canonical_names.
  rewrite !elem_of_cons, elem_of_nil.
  destruct (loggerfx.logLevelMap !! s) as [l|] eqn:E.
  - apply logLevelMap_lookup_Some in E. split; [intros _ | done]. tauto.
  - split; [done |]. intros H.
    destruct H as [-> | [-> | [-> | [-> | [-> | [-> | [-> | []]]]]]]];
      vm_compute in E; discriminate E.
Qed.

Lemma invalid_level_index (name : string) :
  loggerfx.validateLogLevel name = false ->
  loggerfx.logLevelMap_index name = zapcore.InfoLevel.
Proof.
  unfold loggerfx.validateLogLevel, loggerfx.logLevelMap_index.
  destruct (loggerfx.logLevelMap !! name); [discriminate | reflexivity].
Qed.

Lemma elem_of_vocabulary (lvl : zapcore.Level) :
  lvl ∈ vocabulary <-> -1 <= lvl <= 5.
Proof.
  unfold vocabulary, zapcore.DebugLevel, zapcore.InfoLevel, zapcore.WarnLevel,
    zapcore.ErrorLevel, zapcore.DPanicLevel, zapcore.PanicLevel, zapcore.FatalLevel.
  rewrite !elem_of_cons, elem_of_nil. lia.
Qed.

(** The numeric order of the levels is the order of their names. *)
Lemma enabled_by_severity (name : string) (lvl : zapcore.Level) :
  name ∈ canonical_names -> lvl ∈ vocabulary ->
  zapcore.Level_Enabled (loggerfx.logLevelMap_index name) lvl =
  bool_decide (severity name <= severity (zapcore.Level_String lvl))%nat.
Proof.
  unfold canonical_names, vocabulary. rewrite !elem_of_cons, !elem_of_nil.
  intros Hn Hl.
  destruct Hn as [-> | [-> | [-> | [-> | [-> | [-> | [-> | []]]]]]]];
    destruct Hl as [-> | [-> | [-> | [-> | [-> | [-> | [-> | []]]]]]]];
    vm_compute; reflexivity.
Qed.

Lemma colorMap_lookup_vocabulary (l : zapcore.Level) :
  is_Some (loggerfx.colorMap !! l) <-> l ∈ vocabulary.
Proof.
  unfold vocabulary, loggerfx.colorMap.
  rewrite !elem_of_cons, elem_of_nil, !lookup_insert_is_Some', lookup_empty.
  split.
  - intros H. repeat (destruct H as [<- | H]; [tauto |]). destruct H as [? [=]].
  - intros H. repeat (destruct H as [-> | H]; [tauto |]). destruct H.
Qed.

Lemma colorMap_lookup_None (l : zapcore.Level) :
  loggerfx.colorMap !! l = None <-> l ∉ vocabulary.
Proof.
  rewrite <- colorMap_lookup_vocabulary, eq_None_not_Some. reflexivity.
Qed.

Lemma vocabulary_no_stack (lvl : zapcore.Level) :
  lvl ∈ vocabulary -> zapcore.Level_Enabled 6 lvl = false.
Proof.
  unfold vocabulary. rewrite !elem_of_cons, elem_of_nil.
  intros [-> | [-> | [-> | [-> | [-> | [-> | [-> | []]]]]]]]; reflexivity.
Qed.

(** *** The factory, evaluated *)

(** A directory that can be made: [New] returns the logger [built]. *)
Lemma New_success (w : World) (cfg : loggerfx.LoggerConfig) :
  mkdir_failure w (loggerfx.File_Path (loggerfx.File cfg)) = None ->
  loggerfx.New (Some cfg) w =
    (Return (Some (built cfg), None), after_mkdir w (loggerfx.File_Path (loggerfx.File cfg))).
Proof.
  intros H. unfold loggerfx.New, mbind, M_bind, os.MkdirAll. rewrite H. reflexivity.
Qed.

(** A directory that cannot be made: [New] returns the wrapped error and
    leaves the world as it was. *)
Lemma New_failure (w : World) (cfg : loggerfx.LoggerConfig) (cause : error) :
  mkdir_failure w (loggerfx.File_Path (loggerfx.File cfg)) = Some cause ->
  loggerfx.New (Some cfg) w =
    (Return (None,
             Some (fmt.Errorf_w "error in creating log file folder for writing: " cause)),
     w).
Proof.
  intros H. unfold loggerfx.New, mbind, M_bind, os.MkdirAll. rewrite H. reflexivity.
Qed.

Lemma New_inv w cfg l e w' :
  loggerfx.New (Some cfg) w = (Return (l, e), w') ->
  match mkdir_failure w (loggerfx.File_Path (loggerfx.File cfg)) with
  | Some cause => l = None /\ is_Some e /\ w' = w
  | None => l = Some (built cfg) /\ e = None /\
            w' = after_mkdir w (loggerfx.File_Path (loggerfx.File cfg))
  end.
Proof.
  unfold loggerfx.New, mbind, M_bind, os.MkdirAll.
  destruct (mkdir_failure w (loggerfx.File_Path (loggerfx.File cfg))) as [cause|];
    intros [= <- <- <-]; eauto.
Qed.

Lemma New_returns_built w0 cfg s :
  (loggerfx.New (Some cfg) w0).1 = Return (Some s, None) -> s = built cfg.
Proof.
  destruct (loggerfx.New (Some cfg) w0) as [o w1] eqn:E. cbn [fst]. intros ->.
  apply New_inv in E. destruct (mkdir_failure w0 _).
  - destruct E as [[=] _].
  - destruct E as [[= ->] _]. reflexivity.
Qed.

(** *** A log call, evaluated *)

Lemma EncodeEntry_file (ent : zapcore.Entry) :
  zapcore.EncodeEntry (zapcore.jsonEncoder zap.NewProductionEncoderConfig) ent
  = Return (file_record ent).
Proof.
  unfold file_record. cbn. unfold zapcore.caller_part.
  destruct (zapcore.Defined (zapcore.Entry_Caller ent)); reflexivity.
Qed.

Lemma EncodeEntry_console (ent : zapcore.Entry) :
  zapcore.EncodeEntry (zapcore.consoleEncoder loggerfx.consoleEncoderConfig) ent
  = match loggerfx.colorMap !! zapcore.Entry_Level ent with
    | Some c => Return (console_record c ent)
    | None => Panic nil_dereference
    end.
Proof.
  unfold console_record, zapcore.EncodeEntry, zapcore.level_part,
    loggerfx.consoleEncoderConfig.
  cbn [zapcore.EncodeLevel zapcore.LevelKey zap.NewProductionEncoderConfig].
  rewrite decide_False by discriminate.
  unfold loggerfx.consoleEncodeLevel, zapcore.caller_part.
  destruct (loggerfx.colorMap !! zapcore.Entry_Level ent); [| reflexivity].
  destruct (zapcore.Defined (zapcore.Entry_Caller ent)); reflexivity.
Qed.

Lemma ioCore_Write_file cfg ent :
  zapcore.ioCore_Write (file_core cfg) ent = os.write (file_stream cfg) (file_record ent).
Proof.
  unfold zapcore.ioCore_Write. cbn [file_core zapcore.enc zapcore.out].
  rewrite EncodeEntry_file. reflexivity.
Qed.

Lemma ioCore_Write_console cfg ent :
  zapcore.ioCore_Write (console_core cfg) ent =
  match loggerfx.colorMap !! zapcore.Entry_Level ent with
  | Some c => os.write Stderr (console_record c ent)
  | None => panic nil_dereference
  end.
Proof.
  unfold zapcore.ioCore_Write. cbn [console_core zapcore.enc zapcore.out].
  rewrite EncodeEntry_console.
  destruct (loggerfx.colorMap !! zapcore.Entry_Level ent); reflexivity.
Qed.

(** [check] on the logger of [New], when a core takes the level: the
    checked entry carries the call site and the cores that take it. *)
Lemma Logger_check_built cfg lvl msg stack w :
  zapcore.Level_Enabled (file_threshold cfg) lvl || zapcore.Level_Enabled (console_threshold cfg) lvl = true ->
  zap.Logger_check (zap.base (built cfg)) lvl msg stack w =
  (_ ← match stack with
       | [] => os.write Stderr (CheckErrorLine (clock w))
       | _ :: _ => mret None
       end;
   mret (Some {| zapcore.ce_Entry := entry_of lvl (clock w) msg stack;
                 zapcore.ce_ErrorOutput := Some (zapcore.lockedWriteSyncer (zapcore.File_ Stderr));
                 zapcore.ce_after := after_of lvl;
                 zapcore.ce_cores := cores_for cfg lvl |})) w.
Proof.
  intros Hen.
  unfold zap.Logger_check, built, cores_for, after_of, entry_of.
  cbn [zap.base zap.core zap.development zap.addCaller zap.errorOutput zap.addStack].
  unfold zapcore.Core_Enabled, zapcore.Core_Check, existsb, fold_left.
  unfold zapcore.ioCore_Check, zapcore.ioCore_Enabled.
  cbn [zapcore.Entry_Level zapcore.enab file_core console_core].
  rewrite orb_false_r, Hen, andb_false_r.
  unfold mbind at 1. unfold M_bind at 1. unfold time_Now at 1.
  destruct (zapcore.Level_Enabled (file_threshold cfg) lvl) eqn:Ef;
    destruct (zapcore.Level_Enabled (console_threshold cfg) lvl) eqn:Ec;
    try discriminate Hen.
  all: destruct (decide (lvl = zapcore.PanicLevel)) as [Hp|Hp];
       [| destruct (decide (lvl = zapcore.FatalLevel)) as [Hf|Hf];
          [| destruct (decide (lvl = zapcore.DPanicLevel)) as [Hd|Hd]]].
  all: cbn.
  all: destruct stack as [| frame rest]; cbn.
  all: try reflexivity.
  all: destruct (zapcore.Level_Enabled 6 lvl); try reflexivity.
Qed.

Lemma after_terminal lvl msg :
  match after_of lvl with
  | zapcore.WriteThenNoop => mret tt
  | zapcore.WriteThenPanic => panic msg
  | zapcore.WriteThenFatal => exit 1
  end = terminal lvl msg.
Proof. unfold after_of, terminal, ending, lift. repeat case_decide; reflexivity. Qed.

Lemma os_write_put st b w : os.write st b w = (Return (write_failure w st), put st b w).
Proof. unfold os.write, put. destruct (write_failure w st); reflexivity. Qed.

Lemma write_failure_put st b w : write_failure (put st b w) = write_failure w.
Proof. unfold put. destruct (write_failure w st); reflexivity. Qed.

Lemma clock_put st b w : clock (put st b w) = clock w.
Proof. unfold put. destruct (write_failure w st); reflexivity. Qed.

Ltac run_writes :=
  repeat first
    [ rewrite os_write_put
    | rewrite write_failure_put
    | progress cbv beta iota zeta ].

(** A log call on the logger of [New] is [log_steps], at every level. *)
Lemma log_by_steps cfg lvl msg stack w :
  zap.SugaredLogger_log (built cfg) lvl msg stack w = log_steps cfg lvl msg stack w.
Proof.
  unfold zap.SugaredLogger_log, log_steps.
  destruct (zapcore.Level_Enabled (file_threshold cfg) lvl
            || zapcore.Level_Enabled (console_threshold cfg) lvl) eqn:Hen.
  - (* some core takes the entry *)
    replace (zapcore.Core_Enabled (zap.core (zap.base (built cfg))) lvl) with true
      by (unfold built, zapcore.Core_Enabled, existsb, zapcore.ioCore_Enabled;
          cbn [zap.base zap.core zapcore.enab file_core console_core];
          rewrite orb_false_r; symmetry; exact Hen).
    rewrite andb_false_r.
    replace (negb (zapcore.Level_Enabled (file_threshold cfg) lvl)
             && negb (zapcore.Level_Enabled (console_threshold cfg) lvl)) with false
      by (rewrite <- negb_orb, Hen; reflexivity).
    unfold mbind at 1. unfold M_bind at 1.
    rewrite Logger_check_built by exact Hen.
    unfold mbind, M_bind, time_Now, mret, M_ret.
    assert (Hpre : exists o w1,
      match stack with
      | [] => os.write Stderr (CheckErrorLine (clock w))
      | _ :: _ => fun w0 : World => (Return None, w0)
      end w = (Return o, w1) /\ write_failure w1 = write_failure w).
    { destruct stack; [rewrite os_write_put, <- (write_failure_put Stderr (CheckErrorLine (clock w)) w) |]; eauto. }
    destruct Hpre as (o & w1 & -> & Hwf).
    cbv beta iota zeta.
    unfold zapcore.CheckedEntry_Write, cores_for.
    cbn [zapcore.ce_cores zapcore.ce_Entry zapcore.ce_ErrorOutput zapcore.ce_after
         zapcore.WriteSyncer_Write].
    change (zapcore.Entry_Message (entry_of lvl (clock w) msg stack)) with msg.
    change (zapcore.Entry_Time (entry_of lvl (clock w) msg stack)) with (clock w).
    rewrite after_terminal.
    destruct (zapcore.Level_Enabled (file_threshold cfg) lvl);
      destruct (zapcore.Level_Enabled (console_threshold cfg) lvl);
      try discriminate Hen.
    all: cbn [app zapcore.write_cores].
    all: rewrite ?ioCore_Write_file, ?ioCore_Write_console.
    all: change (zapcore.Entry_Level (entry_of lvl (clock w) msg stack)) with lvl.
    all: unfold mbind, M_bind, mret, M_ret.
    all: try destruct (loggerfx.colorMap !! lvl) as [c|].
    all: run_writes.
    all: try reflexivity.
    all: rewrite Hwf.
    all: try destruct (write_failure w (file_stream cfg)).
    all: try destruct (write_failure w Stderr).
    all: cbn [errs_of from_option app].
    all: run_writes.
    all: reflexivity.
  - (* no core takes it: nothing is written, the terminal action remains *)
    apply orb_false_elim in Hen as [Ef Ec].
    unfold zap.Logger_check, terminal, ending, lift.
    replace (zapcore.Core_Enabled (zap.core (zap.base (built cfg))) lvl) with false
      by (unfold built, zapcore.Core_Enabled, existsb, zapcore.ioCore_Enabled;
          cbn [zap.base zap.core zapcore.enab file_core console_core];
          rewrite Ef, Ec; reflexivity).
    rewrite Ef, Ec, andb_true_r. cbn [negb andb].
    case_bool_decide as Hlt.
    + unfold zapcore.DPanicLevel, zapcore.PanicLevel, zapcore.FatalLevel in *.
      repeat case_decide; try lia. reflexivity.
    + unfold built, zapcore.Core_Check, fold_left, zapcore.ioCore_Check, zapcore.ioCore_Enabled.
      cbn [zap.base zap.core zap.development zapcore.Entry_Level zapcore.enab
           file_core console_core].
      rewrite Ef, Ec.
      unfold mbind, M_bind, time_Now, mret, M_ret.
      destruct (decide (lvl = zapcore.PanicLevel));
        [| destruct (decide (lvl = zapcore.FatalLevel));
           [| destruct (decide (lvl = zapcore.DPanicLevel))]];
        reflexivity.
Qed.

(** At a level the color map knows, the call ends as its level decides and
    leaves the world [logged]. *)
Lemma log_steps_colored cfg lvl c msg stack w :
  loggerfx.colorMap !! lvl = Some c ->
  log_steps cfg lvl msg stack w = (ending lvl msg, logged cfg lvl c msg stack w).
Proof.
  intros Hc. unfold log_steps, logged, terminal, lift.
  destruct (negb _ && negb _); [reflexivity |].
  unfold mbind, M_bind, time_Now, mret, M_ret. rewrite Hc.
  destruct stack;
    destruct (zapcore.Level_Enabled (file_threshold cfg) lvl);
    destruct (zapcore.Level_Enabled (console_threshold cfg) lvl).
  all: run_writes.
  all: destruct (write_failure w Stderr); destruct (write_failure w (file_stream cfg)).
  all: cbn [errs_of from_option app]; run_writes.
  all: reflexivity.
Qed.

(** At a level the console takes and the color map lacks, the call panics
    in the level encoder. *)
Lemma log_steps_uncolored cfg lvl msg stack w :
  loggerfx.colorMap !! lvl = None ->
  zapcore.Level_Enabled (console_threshold cfg) lvl = true ->
  (log_steps cfg lvl msg stack w).1 = Panic nil_dereference.
Proof.
  intros Hc Hec. unfold log_steps. rewrite Hec, andb_false_r, Hc.
  unfold mbind, M_bind, time_Now, mret, M_ret, panic.
  destruct stack; destruct (zapcore.Level_Enabled (file_threshold cfg) lvl).
  all: run_writes.
  all: reflexivity.
Qed.

Lemma log_colored cfg lvl c msg stack w :
  loggerfx.colorMap !! lvl = Some c ->
  zap.SugaredLogger_log (built cfg) lvl msg stack w =
  (ending lvl msg, logged cfg lvl c msg stack w).
Proof. intros Hc. rewrite log_by_steps. apply log_steps_colored, Hc. Qed.

Lemma log_uncolored cfg lvl msg stack w :
  lvl ∉ vocabulary ->
  zapcore.Level_Enabled (console_threshold cfg) lvl = true ->
  (zap.SugaredLogger_log (built cfg) lvl msg stack w).1 = Panic nil_dereference.
Proof.
  intros Hl Hen. rewrite log_by_steps.
  apply log_steps_uncolored; [apply colorMap_lookup_None, Hl | exact Hen].
Qed.

(** *** What a log call writes *)

Lemma written_put st b w : written (put st b w) = written w ++ wrote st b w.
Proof.
  unfold put, wrote. destruct (write_failure w st); [| reflexivity].
  symmetry. apply app_nil_r.
Qed.

Lemma wrote_put st b st' b' w : wrote st b (put st' b' w) = wrote st b w.
Proof. unfold wrote. rewrite write_failure_put. reflexivity. Qed.

(** The writes of a call come after what was written before. *)
Lemma written_logged cfg lvl c msg stack w :
  written (logged cfg lvl c msg stack w) = written w ++ log_trace cfg lvl c msg stack w.
Proof.
  unfold logged, log_trace.
  destruct (negb _ && negb _); [symmetry; apply app_nil_r |].
  cbv zeta.
  set (ent := entry_of lvl (clock w) msg stack).
  set (errs := errs_of _ _).
  set (w1 := match stack with [] => put Stderr _ w | _ :: _ => w end).
  assert (H1 : written w1 = written w ++ match stack with
                                         | [] => wrote Stderr (CheckErrorLine (clock w)) w
                                         | _ :: _ => []
                                         end /\ write_failure w1 = write_failure w).
  { subst w1. destruct stack; [rewrite written_put, write_failure_put | rewrite app_nil_r]; done. }
  destruct H1 as [H1 F1].
  set (w2 := if zapcore.Level_Enabled (file_threshold cfg) lvl then _ else w1).
  assert (H2 : written w2 = written w1 ++
                 (if zapcore.Level_Enabled (file_threshold cfg) lvl
                  then wrote (file_stream cfg) (file_record ent) w else []) /\
               write_failure w2 = write_failure w).
  { subst w2. destruct (zapcore.Level_Enabled (file_threshold cfg) lvl).
    - rewrite written_put, write_failure_put. unfold wrote. rewrite F1. done.
    - rewrite app_nil_r. done. }
  destruct H2 as [H2 F2].
  set (w3 := if zapcore.Level_Enabled (console_threshold cfg) lvl then _ else w2).
  assert (H3 : written w3 = written w2 ++
                 (if zapcore.Level_Enabled (console_threshold cfg) lvl
                  then wrote Stderr (console_record c ent) w else []) /\
               write_failure w3 = write_failure w).
  { subst w3. destruct (zapcore.Level_Enabled (console_threshold cfg) lvl).
    - rewrite written_put, write_failure_put. unfold wrote. rewrite F2. done.
    - rewrite app_nil_r. done. }
  destruct H3 as [H3 F3].
  destruct errs.
  - rewrite H3, H2, H1, app_nil_r, <- !app_assoc. reflexivity.
  - rewrite written_put, H3, H2, H1, <- !app_assoc. unfold wrote. rewrite F3. reflexivity.
Qed.

Lemma added_logged cfg lvl c msg stack w :
  added w (logged cfg lvl c msg stack w) = log_trace cfg lvl c msg stack w.
Proof. unfold added. rewrite written_logged. apply drop_app_length. Qed.

Lemma file_records_logged cfg lvl c msg stack w :
  file_records cfg w (logged cfg lvl c msg stack w) =
  if zapcore.Level_Enabled (file_threshold cfg) lvl then
    match write_failure w (file_stream cfg) with
    | None => [file_record (entry_of lvl (clock w) msg stack)]
    | Some _ => []
    end
  else [].
Proof.
  unfold file_records, on_stream. rewrite added_logged.
  unfold log_trace, wrote, errs_of, file_stream.
  generalize (path.Join [loggerfx.File_Path (loggerfx.File cfg); "server.log"]) as fname.
  intros fname.
  destruct (zapcore.Level_Enabled (file_threshold cfg) lvl),
    (zapcore.Level_Enabled (console_threshold cfg) lvl), stack,
    (write_failure w Stderr), (write_failure w (NamedFile fname)).
  all: cbn -[file_record console_record entry_of].
  all: repeat case_decide; try congruence.
  all: try reflexivity.

Qed.

Lemma console_records_logged cfg lvl c msg stack w :
  console_records w (logged cfg lvl c msg stack w) =
  if zapcore.Level_Enabled (console_threshold cfg) lvl then
    match write_failure w Stderr with
    | None => [console_record c (entry_of lvl (clock w) msg stack)]
    | Some _ => []
    end
  else [].
Proof.
  unfold console_records, on_stream. rewrite added_logged.
  unfold log_trace, wrote, errs_of, file_stream.
  generalize (path.Join [loggerfx.File_Path (loggerfx.File cfg); "server.log"]) as fname.
  intros fname.
  destruct (zapcore.Level_Enabled (file_threshold cfg) lvl),
    (zapcore.Level_Enabled (console_threshold cfg) lvl), stack,
    (write_failure w Stderr), (write_failure w (NamedFile fname)).
  all: cbn -[file_record console_record entry_of].
  all: repeat case_decide; try congruence.
  all: try reflexivity.
Qed.

Lemma console_lines_only_on_stderr cfg lvl c msg stack w st :
  st <> Stderr ->
  filter (fun b => is_console_line b = true)
    (on_stream st (added w (logged cfg lvl c msg stack w))) = [].
Proof.
  intros Hst. rewrite added_logged. unfold on_stream, log_trace, wrote, errs_of, file_stream.
  generalize (path.Join [loggerfx.File_Path (loggerfx.File cfg); "server.log"]) as fname.
  intros fname.
  destruct (zapcore.Level_Enabled (file_threshold cfg) lvl),
    (zapcore.Level_Enabled (console_threshold cfg) lvl), stack,
    (write_failure w Stderr), (write_failure w (NamedFile fname)).
  all: cbn -[file_record console_record entry_of].
  all: repeat case_decide; try congruence.
  all: reflexivity.
Qed.

(** The file sink: an event the file core takes leaves one JSON record on
    [server.log] under the configured path when the file takes the write,
    and a log call puts nothing else in that file. *)
Lemma file_sink_one_record (cfg : loggerfx.LoggerConfig) (lvl : zapcore.Level)
    (c : logger.Color) (msg : string) (stack : list runtime.Frame) (w : World) :
  file_stream cfg =
    NamedFile (path.Join [loggerfx.File_Path (loggerfx.File cfg); "server.log"]) /\
  on_stream (file_stream cfg) (added w (logged cfg lvl c msg stack w)) =
    file_records cfg w (logged cfg lvl c msg stack w) /\
  (length (file_records cfg w (logged cfg lvl c msg stack w)) <= 1)%nat.
Proof.
  split; [reflexivity |]. split.
  - unfold file_records, on_stream. rewrite added_logged.
    unfold log_trace, wrote, errs_of, file_stream.
    generalize (path.Join [loggerfx.File_Path (loggerfx.File cfg); "server.log"]) as fname.
    intros fname.
    destruct (zapcore.Level_Enabled (file_threshold cfg) lvl),
      (zapcore.Level_Enabled (console_threshold cfg) lvl), stack,
      (write_failure w Stderr), (write_failure w (NamedFile fname)).
    all: cbn -[file_record console_record entry_of].
    all: repeat case_decide; try congruence.
    all: reflexivity.
  - rewrite file_records_logged.
    destruct (zapcore.Level_Enabled (file_threshold cfg) lvl),
      (write_failure w (file_stream cfg)); cbn; lia.
Qed.

(** *** The console over a run of events *)

Lemma clock_logged cfg lvl c msg stack w : clock (logged cfg lvl c msg stack w) = clock w.
Proof.
  unfold logged. destruct (negb _ && negb _); [reflexivity |]. cbv zeta.
  destruct (errs_of _ _), stack,
    (zapcore.Level_Enabled (file_threshold cfg) lvl),
    (zapcore.Level_Enabled (console_threshold cfg) lvl);
    rewrite ?clock_put; reflexivity.
Qed.

Lemma write_failure_logged cfg lvl c msg stack w :
  write_failure (logged cfg lvl c msg stack w) = write_failure w.
Proof.
  unfold logged. destruct (negb _ && negb _); [reflexivity |]. cbv zeta.
  destruct (errs_of _ _), stack,
    (zapcore.Level_Enabled (file_threshold cfg) lvl),
    (zapcore.Level_Enabled (console_threshold cfg) lvl);
    rewrite ?write_failure_put; reflexivity.
Qed.

Lemma on_stream_app st l1 l2 : on_stream st (l1 ++ l2) = on_stream st l1 ++ on_stream st l2.
Proof. unfold on_stream. apply omap_app. Qed.

Lemma console_output_logged cfg lvl c msg stack w :
  console_output (logged cfg lvl c msg stack w) =
  console_output w ++ console_records w (logged cfg lvl c msg stack w).
Proof.
  unfold console_output, console_records.
  rewrite added_logged, written_logged, on_stream_app, filter_app. reflexivity.
Qed.

Lemma same_console_logged cfg lvl c msg stack w1 w2 :
  same_console w1 w2 ->
  same_console (logged cfg lvl c msg stack w1) (logged cfg lvl c msg stack w2).
Proof.
  intros (Hc & Hf & Ho). unfold same_console.
  rewrite !clock_logged, !write_failure_logged, !console_output_logged,
    !console_records_logged, Hc, Hf, Ho. auto.
Qed.

(** Faults of files never show on the console: a run and the same run
    without them leave worlds the console cannot tell apart. *)
Lemma run_same_console cfg evs w1 w2 :
  Forall in_vocabulary evs -> same_console w1 w2 ->
  same_console (run (built cfg) evs w1) (run (built cfg) (without_file_faults evs) w2).
Proof.
  intros Hv. revert w1 w2.
  induction Hv as [| ev evs Hev _ IH]; intros w1 w2 Hs; [exact Hs |].
  destruct ev as [lvl msg stack | st e | st | t].
  - cbn [without_file_faults is_file_fault run].
    cbn [in_vocabulary] in Hev. apply colorMap_lookup_vocabulary in Hev as [c Hc].
    rewrite !(log_colored _ _ c) by exact Hc.
    pose proof (same_console_logged cfg lvl c msg stack w1 w2 Hs) as Hs'.
    destruct (ending lvl msg); [apply IH, Hs' | apply IH, Hs' | exact Hs'].
  - destruct st as [| name]; cbn [without_file_faults is_file_fault run].
    + apply IH. destruct Hs as (Hc & Hf & Ho). repeat split; cbn; assumption.
    + apply IH. destruct Hs as (Hc & Hf & Ho). repeat split; cbn; assumption.
  - cbn [without_file_faults is_file_fault run].
    apply IH. destruct Hs as (Hc & Hf & Ho). repeat split; cbn; try assumption.
    destruct st; cbn; [reflexivity | assumption].
  - cbn [without_file_faults is_file_fault run].
    apply IH. destruct Hs as (Hc & Hf & Ho). repeat split; cbn; assumption.
Qed.

Lemma same_console_mended w : same_console w (files_mended w).
Proof. repeat split. Qed.

(** *** The time and the call site as text *)

Lemma matches_app p1 p2 s1 s2 :
  matches p1 s1 = true -> matches p2 s2 = true -> matches (p1 ++ p2) (s1 +:+ s2) = true.
Proof.
  revert s1. induction p1 as [| c p1 IH]; intros [| a s1];
    cbn [matches String.append app]; try discriminate.
  - intros _ H. exact H.
  - intros [Ha Hs]%andb_prop H. apply andb_true_intro. split; [exact Ha | apply IH; assumption].
Qed.

Lemma appendInt_2_digits (x : Z) :
  0 <= x < 100 -> matches [digit; digit] (time.appendInt x 2) = true.
Proof.
  intros Hx.
  assert (H : forallb (fun n => matches [digit; digit] (time.appendInt (Z.of_nat n) 2))
                (seq 0 100) = true) by (vm_compute; reflexivity).
  rewrite forallb_forall in H.
  specialize (H (Z.to_nat x)). rewrite Z2Nat.id in H by lia.
  apply H, in_seq. lia.
Qed.

Lemma appendInt_4_digits (x : Z) :
  0 <= x < 10000 -> matches [digit; digit; digit; digit] (time.appendInt x 4) = true.
Proof.
  intros Hx.
  assert (H : forallb (fun n => matches [digit; digit; digit; digit]
                                  (time.appendInt (Z.of_nat n) 4))
                (seq 0 (Z.to_nat 10000)) = true) by (vm_compute; reflexivity).
  rewrite forallb_forall in H.
  specialize (H (Z.to_nat x)). rewrite Z2Nat.id in H by lia.
  apply H, in_seq. lia.
Qed.

Ltac piece p :=
  apply (matches_app p);
  [ first [ apply appendInt_4_digits; lia | apply appendInt_2_digits; lia | reflexivity ] | ].

(** The format of a civil time has the shape of an RFC 3339 date-time. *)
Lemma Format_RFC3339_shape (t : time.Time) :
  civil t -> is_rfc3339 (time.Format_RFC3339 t) = true.
Proof.
  intros (Hy & Hm & Hd & Hh & Hmi & Hs & Ho).
  unfold is_rfc3339, time.Format_RFC3339, full_date_time, time_numoffset.
  apply orb_true_iff.
  destruct (decide (time.Offset t = 0)) as [Hz | Hz]; [left | right].
  all: piece [digit; digit; digit; digit]; piece [lit "-"]; piece [digit; digit];
       piece [lit "-"]; piece [digit; digit]; piece [lit "T"]; piece [digit; digit];
       piece [lit ":"]; piece [digit; digit]; piece [lit ":"]; piece [digit; digit].
  - reflexivity.
  - apply (matches_app [sign]).
    + destruct (decide _); reflexivity.
    + apply (matches_app [digit; digit]).
      * apply appendInt_2_digits. Z.to_euclidean_division_equations. lia.
      * apply (matches_app [lit ":"]); [reflexivity |]. apply appendInt_2_digits.
        Z.to_euclidean_division_equations. lia.
Qed.

Lemma LastIndexByte_from_none (i : nat) (s : string) :
  no_slash s = true -> strings.LastIndexByte_from i s "/"%char = None.
Proof.
  revert i. induction s as [| a s IH]; intros i; cbn [no_slash strings.LastIndexByte_from].
  - reflexivity.
  - intros [Ha Hs]%andb_prop. rewrite (IH _ Hs).
    apply negb_true_iff, bool_decide_eq_false in Ha. rewrite decide_False by exact Ha.
    reflexivity.
Qed.

Lemma append_cons (a : ascii) (s1 s2 : string) :
  String a s1 +:+ s2 = String a (s1 +:+ s2).
Proof. reflexivity. Qed.

Lemma append_nil (s : string) : "" +:+ s = s.
Proof. reflexivity. Qed.

Lemma LastIndexByte_from_last (i : nat) (s1 s2 : string) :
  no_slash s2 = true ->
  strings.LastIndexByte_from i (s1 +:+ "/" +:+ s2) "/"%char = Some (i + String.length s1)%nat.
Proof.
  intros H2. revert i. induction s1 as [| a s1 IH]; intros i.
  - rewrite append_nil, append_cons, append_nil. simpl.
    rewrite (LastIndexByte_from_none _ _ H2).
    f_equal. lia.
  - rewrite append_cons. simpl. rewrite IH. f_equal. lia.
Qed.

Lemma strings_take_app (s1 s2 : string) : strings.take (String.length s1) (s1 +:+ s2) = s1.
Proof.
  induction s1 as [| a s1 IH].
  - rewrite append_nil. destruct s2; reflexivity.
  - rewrite append_cons. simpl. rewrite IH. reflexivity.
Qed.

Lemma strings_drop_app (s1 s2 : string) (a : ascii) :
  strings.drop (S (String.length s1)) (s1 +:+ String a s2) = s2.
Proof.
  induction s1 as [| b s1 IH].
  - rewrite append_nil. destruct s2; reflexivity.
  - rewrite append_cons. exact IH.
Qed.

Lemma append_assoc (s1 s2 s3 : string) : (s1 +:+ s2) +:+ s3 = s1 +:+ s2 +:+ s3.
Proof.
  induction s1 as [| a s1 IH]; [reflexivity |].
  rewrite !append_cons, IH. reflexivity.
Qed.

(** The trimmed path of a file below two directories or more: the last
    directory, the file name and the line. *)
Lemma TrimmedPath_last_two (ec : zapcore.EntryCaller) (dir pkg base : string) :
  zapcore.Defined ec = true ->
  zapcore.File ec = dir +:+ "/" +:+ pkg +:+ "/" +:+ base ->
  no_slash pkg = true -> no_slash base = true ->
  zapcore.TrimmedPath ec = pkg +:+ "/" +:+ base +:+ ":" +:+ pretty (zapcore.Line ec).
Proof.
  intros Hd Hf Hp Hb. unfold zapcore.TrimmedPath, strings.LastIndexByte. rewrite Hd, Hf.
  assert (E1 : dir +:+ "/" +:+ pkg +:+ "/" +:+ base = (dir +:+ "/" +:+ pkg) +:+ "/" +:+ base)
    by (rewrite !append_assoc; reflexivity).
  rewrite E1 at 1.
  rewrite (LastIndexByte_from_last 0 _ base Hb). simpl Nat.add. cbv iota beta.
  rewrite E1 at 1.
  rewrite strings_take_app.
  rewrite (LastIndexByte_from_last 0 dir pkg Hp). simpl Nat.add. cbv iota beta.
  change (dir +:+ "/" +:+ pkg +:+ "/" +:+ base)
    with (dir +:+ String "/" (pkg +:+ "/" +:+ base)).
  rewrite strings_drop_app, !append_assoc. reflexivity.
Qed.

Example TrimmedPath_sample :
  zapcore.TrimmedPath
    {| zapcore.Defined := true; zapcore.PC := 4242;
       zapcore.File := "/home/dev/go/src/app/main.go"; zapcore.Line := 17;
       zapcore.Function := "main.main" |} = "app/main.go:17".
Proof. vm_compute. reflexivity. Qed.

(** *** The JSON strings of a record, read back *)

Lemma json_unquote_escape_ascii (a : ascii) (rest : string) :
  byte a < 128 ->
  json_unquote (zapcore.escape_ascii a +:+ rest) =
  match json_unquote rest with
  | Some tail => Some (String a tail)
  | None => None
  end.
Proof.
  destruct a as [[] [] [] [] [] [] [] []]; intros H;
    try (exfalso; vm_compute in H; discriminate H).
  all: reflexivity.
Qed.

Lemma json_unquote_high (a : ascii) (rest : string) :
  128 <= byte a ->
  json_unquote (String a rest) =
  match json_unquote rest with
  | Some tail => Some (String a tail)
  | None => None
  end.
Proof.
  destruct a as [[] [] [] [] [] [] [] []]; intros H;
    try (exfalso; vm_compute in H; apply H; reflexivity).
  all: reflexivity.
Qed.

Lemma json_unquote_escape_each (s : string) : json_unquote (escape_each s) = Some s.
Proof.
  induction s as [| a s IH]; [reflexivity |].
  cbn [escape_each]. unfold utf8.RuneSelf.
  destruct (Z.leb 128 (byte a)) eqn:E.
  - rewrite append_cons, append_nil, json_unquote_high, IH by (apply Z.leb_le, E). reflexivity.
  - rewrite json_unquote_escape_ascii, IH by (apply Z.leb_gt, E). reflexivity.
Qed.

Ltac bools :=
  repeat match goal with
  | H : _ || _ = false |- _ => apply orb_false_elim in H as [? ?]
  | H : Z.ltb _ _ = false |- _ => apply Z.ltb_ge in H
  | H : Z.ltb _ _ = true |- _ => apply Z.ltb_lt in H
  | H : Z.eqb _ _ = true |- _ => apply Z.eqb_eq in H
  | H : Z.eqb _ _ = false |- _ => apply Z.eqb_neq in H
  | H : utf8.not_continuation _ = false |- _ => unfold utf8.not_continuation in H
  end.

(** The bytes after the first byte of a rune that [DecodeRuneInString]
    accepts are bytes from 0x80 on. *)
Lemma DecodeRuneInString_high_bytes (a : ascii) (s' : string) (r : Z) (size : nat) :
  utf8.DecodeRuneInString (String a s') = (r, size) ->
  negb (Z.eqb r utf8.RuneError) || negb (Nat.eqb size 1) = true ->
  high_bytes (size - 1) s' = true.
Proof.
  unfold utf8.DecodeRuneInString, utf8.first. intros Hd Hok.
  repeat case_match; simplify_eq; try reflexivity;
    try (vm_compute in Hok; discriminate Hok).
  all: bools; cbn [high_bytes Nat.sub]; rewrite ?andb_true_iff; repeat split;
    try apply Z.leb_le; lia.
Qed.

Lemma safeAddString_from_valid (k : nat) (s : string) :
  high_bytes k s = true -> ValidString_from k s = true ->
  zapcore.safeAddString_from k s = escape_each s.
Proof.
  revert k. induction s as [| a s IH]; intros k Hh Hv; [reflexivity |].
  destruct k as [| k].
  - cbn [zapcore.safeAddString_from ValidString_from escape_each] in *.
    destruct (Z.leb utf8.RuneSelf (byte a)) eqn:E.
    + destruct (utf8.DecodeRuneInString (String a s)) as [r size] eqn:Hd.
      apply andb_prop in Hv as [Hok Hv]. rewrite Hok.
      rewrite (IH (size - 1)%nat); [reflexivity | | exact Hv].
      exact (DecodeRuneInString_high_bytes a s r size Hd Hok).
    + rewrite (IH 0%nat); [reflexivity | reflexivity | exact Hv].
  - cbn [zapcore.safeAddString_from ValidString_from escape_each high_bytes] in *.
    apply andb_prop in Hh as [Ha Hh].
    unfold utf8.RuneSelf. rewrite Ha, (IH k Hh Hv). reflexivity.
Qed.

(** A string that is valid UTF-8 is read back from what the encoder
    writes for it. *)
Lemma json_unquote_safeAddString (s : string) :
  ValidString s = true -> json_unquote (zapcore.safeAddString s) = Some s.
Proof.
  intros Hv. unfold zapcore.safeAddString.
  rewrite safeAddString_from_valid by (reflexivity || exact Hv).
  apply json_unquote_escape_each.
Qed.

(** *** The specification, property by property *)

(** C1: an event reaches a sink exactly when its level is at or above the
    threshold configured for that sink, in the order debug < info < warn <
    error < dpanic < panic < fatal; each sink applies its own threshold.
    Stated for a validated configuration, a level of the vocabulary and
    streams that take writes: the file sink gets a record iff the file
    threshold is at most the level, the console sink gets a line iff the
    console threshold is. *)
Theorem sinks_filter_by_threshold (w0 w : World) (cfg : loggerfx.LoggerConfig)
    (s : zap.SugaredLogger) (lvl : zapcore.Level) (msg : string)
    (stack : list runtime.Frame) :
  (loggerfx.New (Some cfg) w0).1 = Return (Some s, None) ->
  loggerfx.validateLogLevel (loggerfx.File_Level (loggerfx.File cfg)) = true ->
  loggerfx.validateLogLevel (loggerfx.Console_Level (loggerfx.Console cfg)) = true ->
  lvl ∈ vocabulary ->
  (forall st, write_failure w st = None) ->
  let w' := (zap.SugaredLogger_log s lvl msg stack w).2 in
  (file_records cfg w w' <> [] <->
   (severity (loggerfx.File_Level (loggerfx.File cfg)) <=
    severity (zapcore.Level_String lvl))%nat) /\
  (console_records w w' <> [] <->
   (severity (loggerfx.Console_Level (loggerfx.Console cfg)) <=
    severity (zapcore.Level_String lvl))%nat).
Proof.
  intros Hnew Hf Hc Hl Hw w'. subst w'.
  apply New_returns_built in Hnew as ->.
  apply validateLogLevel_canonical in Hf, Hc.
  pose proof Hl as [c Hcol]%colorMap_lookup_vocabulary.
  rewrite (log_colored _ _ c) by exact Hcol. cbn [snd].
  rewrite file_records_logged, console_records_logged, !Hw.
  unfold file_threshold, console_threshold.
  rewrite !enabled_by_severity by assumption.
  split; case_bool_decide; split; intros H'; try done.
Qed.

(** With the file sink at "error" and the console sink at "debug", an info
    event gives a console line and no file record. *)
Lemma sinks_filter_by_threshold_witness :
  let w' := (zap.Info (built sample_config) "hello" sample_stack open_world).2 in
  console_records open_world w' <> [] /\ file_records sample_config open_world w' = [].
Proof.
  destruct (sinks_filter_by_threshold open_world open_world sample_config
              (built sample_config) zapcore.InfoLevel "hello" sample_stack)
    as [Hfile Hconsole].
  - reflexivity.
  - reflexivity.
  - reflexivity.
  - apply elem_of_vocabulary. vm_compute. split; discriminate.
  - intros st. reflexivity.
  - split.
    + apply Hconsole. vm_compute. lia.
    + destruct (file_records sample_config open_world _) as [| r rs]; [reflexivity |].
      exfalso. assert (H : (severity "error" <= severity "info")%nat)
        by (apply Hfile; discriminate).
      vm_compute in H. lia.
Defined.

(** C2: [validateLogLevel], the rule registered as "loglevel", is true of a
    string exactly when the string is one of debug, info, warn, error,
    dpanic, panic, fatal, compared byte for byte: the empty string, "Info",
    "trace" and a padded " info" are rejected.  It is a total function of the
    string alone. *)
Theorem validateLogLevel_iff_canonical :
  (forall s : string, loggerfx.validateLogLevel s = true <-> s ∈ canonical_names) /\
  loggerfx.validateLogLevel "" = false /\
  loggerfx.validateLogLevel "Info" = false /\
  loggerfx.validateLogLevel "trace" = false /\
  loggerfx.validateLogLevel " info" = false /\
  (forall validate : gmap string (string -> bool),
     exists validate',
       loggerfx.RegisterLogLevelValidation validate = (Some validate', None) /\
       validate' !! "loglevel" = Some loggerfx.validateLogLevel).
Proof.
  split; [exact validateLogLevel_canonical |].
  repeat (split; [vm_compute; reflexivity |]).
  intros validate. eexists. split; [reflexivity |].
  apply lookup_insert_eq.
Qed.

(** C3: [New] first calls [MkdirAll] on the configured directory.  When
    that fails, [New] returns, without a panic, a nil logger and an error
    that wraps the cause and says what failed, and the world is as before:
    no sink was built and nothing was written.  When it goes through, the
    directory is the one thing [New] has made. *)
Theorem New_mkdir_failure (w : World) (cfg : loggerfx.LoggerConfig) :
  (forall cause : error,
     mkdir_failure w (loggerfx.File_Path (loggerfx.File cfg)) = Some cause ->
     exists err : error,
       loggerfx.New (Some cfg) w = (Return (None, Some err), w) /\
       Unwrap err = Some cause /\
       Error err = "error in creating log file folder for writing: " +:+ Error cause) /\
  (mkdir_failure w (loggerfx.File_Path (loggerfx.File cfg)) = None ->
   made (loggerfx.New (Some cfg) w).2 = made w ++ [loggerfx.File_Path (loggerfx.File cfg)] /\
   written (loggerfx.New (Some cfg) w).2 = written w).
Proof.
  split.
  - intros cause H. eexists. split; [apply New_failure, H |]. split; reflexivity.
  - intros H. rewrite (New_success w cfg H). split; reflexivity.
Qed.

(** No directory can be made: the error says so and carries the cause. *)
Lemma New_mkdir_failure_witness :
  exists err : error,
    loggerfx.New (Some sample_config) sealed_world = (Return (None, Some err), sealed_world) /\
    Unwrap err = Some denied /\
    Error err =
      "error in creating log file folder for writing: mkdir /var/log/app: permission denied".
Proof.
  destruct (proj1 (New_mkdir_failure sealed_world sample_config) denied)
    as (err & Hnew & Hcause & Hmsg).
  - reflexivity.
  - exists err. split; [exact Hnew |]. split; [exact Hcause |].
    rewrite Hmsg. reflexivity.
Defined.

(** C4, as amended: at the seven levels of the vocabulary no failure of a
    sink reaches the caller of a log call, and a failing file sink takes
    nothing from the console.  A call at a level of the vocabulary ends the
    way its level alone decides, whatever the streams do; the console line of an event the console takes is written
    whenever the standard error takes writes, whatever the file does; and
    over any sequence of calls and faults the console shows exactly what it
    would show had no file ever failed. *)
Theorem sink_failures_isolated (w0 : World) (cfg : loggerfx.LoggerConfig)
    (s : zap.SugaredLogger) :
  (loggerfx.New (Some cfg) w0).1 = Return (Some s, None) ->
  (forall lvl msg stack w,
     lvl ∈ vocabulary ->
     (zap.SugaredLogger_log s lvl msg stack w).1 = ending lvl msg) /\
  (forall lvl msg stack w,
     lvl ∈ vocabulary ->
     zapcore.Level_Enabled (console_threshold cfg) lvl = true ->
     write_failure w Stderr = None ->
     exists c, loggerfx.colorMap !! lvl = Some c /\
       console_records w (zap.SugaredLogger_log s lvl msg stack w).2 =
         [console_record c (entry_of lvl (clock w) msg stack)]) /\
  (forall evs w,
     Forall in_vocabulary evs ->
     console_output (run s evs w) =
     console_output (run s (without_file_faults evs) (files_mended w))).
Proof.
  intros Hnew. apply New_returns_built in Hnew as ->.
  split; [| split].
  - intros lvl msg stack w [c Hc]%colorMap_lookup_vocabulary.
    rewrite (log_colored _ _ c) by exact Hc. reflexivity.
  - intros lvl msg stack w [c Hc]%colorMap_lookup_vocabulary Hen Hok.
    exists c. split; [exact Hc |].
    rewrite (log_colored _ _ c) by exact Hc. cbn [snd].
    rewrite console_records_logged, Hen, Hok. reflexivity.
  - intros evs w Hv.
    apply (run_same_console cfg evs w (files_mended w) Hv), same_console_mended.
Qed.

(** The log file is read-only from the start: both messages still show on
    the console, and the error call returns to its caller. *)
Lemma sink_failures_isolated_witness :
  (zap.Error_ (built sample_config) "disk is gone" sample_stack
     (set_failure (NamedFile "/var/log/app/server.log") (Some read_only) open_world)).1
    = Return tt /\
  length (console_output (run (built sample_config) sample_events open_world)) = 2%nat.
Proof.
  destruct (sink_failures_isolated open_world sample_config (built sample_config))
    as (Hend & _ & Hrun).
  - reflexivity.
  - split.
    + unfold zap.Error_. rewrite Hend.
      * reflexivity.
      * apply elem_of_vocabulary. vm_compute. split; discriminate.
    + rewrite Hrun.
      * vm_compute. reflexivity.
      * repeat constructor; apply elem_of_vocabulary; vm_compute; split; discriminate.
Defined.

(** C4 as stated fails at a level outside the seven: the level encoder of
    the console sink fails there, and the failure reaches the caller as a
    panic, although a call at that level is to return. *)
Lemma sink_failures_isolated_counterexample :
  (loggerfx.New (Some sample_config) open_world).1 = Return (Some (built sample_config), None) /\
  loggerfx.consoleEncodeLevel 7 = Panic nil_dereference /\
  ending 7 "boom" = Return tt /\
  (zap.SugaredLogger_log (built sample_config) 7 "boom" sample_stack open_world).1 =
    Panic nil_dereference.
Proof. repeat split; vm_compute; reflexivity. Qed.

(** C5: the console shows each of the seven levels as its name in capitals
    between brackets, a different tag for each level, in the color the
    seven-entry map gives it: dpanic, panic and fatal share the fatal color,
    debug, info, warn and error have a color each. *)
Theorem console_level_tags :
  dom loggerfx.colorMap = list_to_set vocabulary /\
  size loggerfx.colorMap = 7%nat /\
  map loggerfx.consoleEncodeLevel vocabulary =
    [Return (AppendString (colored logger.DebugColor (tag "debug")));
     Return (AppendString (colored logger.InfoColor (tag "info")));
     Return (AppendString (colored logger.WarnColor (tag "warn")));
     Return (AppendString (colored logger.ErrorColor (tag "error")));
     Return (AppendString (colored logger.FatalColor (tag "dpanic")));
     Return (AppendString (colored logger.FatalColor (tag "panic")));
     Return (AppendString (colored logger.FatalColor (tag "fatal")))] /\
  map zapcore.Level_String vocabulary = canonical_names /\
  NoDup (map tag canonical_names) /\
  NoDup [logger.DebugColor; logger.InfoColor; logger.WarnColor; logger.ErrorColor;
         logger.FatalColor].
Proof.
  split; [| split; [| split; [| split; [| split]]]].
  - apply set_eq. intros l.
    rewrite elem_of_dom, elem_of_list_to_set. apply colorMap_lookup_vocabulary.
  - vm_compute. reflexivity.
  - vm_compute. reflexivity.
  - vm_compute. reflexivity.
  - apply (bool_decide_unpack _). vm_compute. exact I.
  - apply (bool_decide_unpack _). vm_compute. exact I.
Qed.

(** C6, as amended: every record of the file sink is one JSON object on
    [server.log] in the configured directory, one for each event the sink
    takes, with the members level, ts, caller and msg in this order.  Level,
    caller and message are JSON strings that read back as the original
    text, exactly, whenever that text is valid UTF-8, and the level read
    back names the level of the event; the timestamp is the number of
    seconds since the epoch as a float64. *)
Theorem file_record_read_back (w0 w : World) (cfg : loggerfx.LoggerConfig)
    (s : zap.SugaredLogger) (lvl : zapcore.Level) (msg : string)
    (frame : runtime.Frame) (rest : list runtime.Frame) :
  (loggerfx.New (Some cfg) w0).1 = Return (Some s, None) ->
  lvl ∈ vocabulary ->
  zapcore.Level_Enabled (file_threshold cfg) lvl = true ->
  write_failure w (file_stream cfg) = None ->
  runtime.PC frame <> 0 ->
  let site := zapcore.TrimmedPath (caller_of (frame :: rest)) in
  ValidString site = true ->
  ValidString msg = true ->
  let w' := (zap.SugaredLogger_log s lvl msg (frame :: rest) w).2 in
  file_stream cfg =
    NamedFile (path.Join [loggerfx.File_Path (loggerfx.File cfg); "server.log"]) /\
  map json_written (on_stream (file_stream cfg) (added w w')) =
    [Some [("level", zapcore.json_string (zapcore.safeAddString (zapcore.Level_String lvl)));
           ("ts", zapcore.json_number (zapcore.epoch_seconds (clock w)));
           ("caller", zapcore.json_string (zapcore.safeAddString site));
           ("msg", zapcore.json_string (zapcore.safeAddString msg))]] /\
  json_unquote (zapcore.safeAddString (zapcore.Level_String lvl)) =
    Some (zapcore.Level_String lvl) /\
  loggerfx.logLevelMap !! zapcore.Level_String lvl = Some lvl /\
  json_unquote (zapcore.safeAddString site) = Some site /\
  json_unquote (zapcore.safeAddString msg) = Some msg.
Proof.
  intros Hnew Hl Hen Hwf Hpc site Hsite Hmsg w'. subst w' site.
  apply New_returns_built in Hnew as ->.
  pose proof Hl as [c Hc]%colorMap_lookup_vocabulary.
  split; [reflexivity |]. split; [| split; [| split; [| split]]].
  - rewrite (log_colored _ _ c) by exact Hc. cbn [snd].
    destruct (file_sink_one_record cfg lvl c msg (frame :: rest) w) as (_ & -> & _).
    rewrite file_records_logged, Hen, Hwf.
    unfold file_record, entry_of, caller_of in *.
    cbn [zapcore.Entry_Level zapcore.Entry_Time zapcore.Entry_Caller zapcore.Entry_Message
         zapcore.Entry_Stack zapcore.Defined].
    rewrite (vocabulary_no_stack lvl Hl).
    rewrite bool_decide_eq_true_2 by exact Hpc.
    rewrite decide_True by reflexivity.
    reflexivity.
  - apply json_unquote_safeAddString.
    apply elem_of_vocabulary in Hl.
    assert (H : lvl = -1 \/ lvl = 0 \/ lvl = 1 \/ lvl = 2 \/ lvl = 3 \/ lvl = 4 \/ lvl = 5)
      by lia.
    destruct H as [-> | [-> | [-> | [-> | [-> | [-> | ->]]]]]]; reflexivity.
  - apply elem_of_vocabulary in Hl.
    assert (H : lvl = -1 \/ lvl = 0 \/ lvl = 1 \/ lvl = 2 \/ lvl = 3 \/ lvl = 4 \/ lvl = 5)
      by lia.
    destruct H as [-> | [-> | [-> | [-> | [-> | [-> | ->]]]]]]; reflexivity.
  - apply json_unquote_safeAddString, Hsite.
  - apply json_unquote_safeAddString, Hmsg.
Qed.

(** An error event on the sample configuration: the record on
    [/var/log/app/server.log] and its strings read back. *)
Lemma file_record_read_back_witness :
  let w' := (zap.Error_ (built sample_config) "disk is gone" sample_stack open_world).2 in
  map json_written (on_stream (NamedFile "/var/log/app/server.log") (added open_world w')) =
    [Some [("level", zapcore.json_string "error");
           ("ts", zapcore.json_number (zapcore.epoch_seconds sample_time));
           ("caller", zapcore.json_string "app/main.go:17");
           ("msg", zapcore.json_string "disk is gone")]] /\
  json_unquote "disk is gone" = Some "disk is gone".
Proof.
  destruct (file_record_read_back open_world open_world sample_config (built sample_config)
              zapcore.ErrorLevel "disk is gone"
              {| runtime.PC := 4242; runtime.File := "/home/dev/go/src/app/main.go";
                 runtime.Line := 17; runtime.Function := "main.main" |}
              [{| runtime.PC := 4100; runtime.File := "/usr/local/go/src/runtime/proc.go";
                  runtime.Line := 283; runtime.Function := "runtime.main" |}])
    as (_ & Hrec & _ & _ & _ & Hmsg).
  - reflexivity.
  - apply elem_of_vocabulary. vm_compute. split; discriminate.
  - reflexivity.
  - reflexivity.
  - discriminate.
  - reflexivity.
  - reflexivity.
  - split; [exact Hrec | exact Hmsg].
Defined.

(** C6 as stated fails on the timestamp and on the message.  Two events
    one nanosecond apart are written with the same number of seconds, so
    the instant of an event cannot be read back exactly from its record;
    two messages that are not UTF-8 are written as the same string. *)
Lemma file_record_round_trip_counterexample :
  let record_at (w : World) (msg : string) :=
    map json_written
      (on_stream (file_stream default_config)
         (added w (zap.Info (built default_config) msg sample_stack w).2)) in
  clock open_world <> clock (set_clock sample_time_later open_world) /\
  (exists members, record_at open_world "hello" = [Some members] /\
                   record_at (set_clock sample_time_later open_world) "hello" = [Some members]) /\
  stray_byte_ff <> stray_byte_fe /\
  (exists members, record_at open_world stray_byte_ff = [Some members] /\
                   record_at open_world stray_byte_fe = [Some members]).
Proof.
  cbv zeta. split; [discriminate |]. split; [| split; [discriminate |]].
  - eexists. split; vm_compute; reflexivity.
  - eexists. split; vm_compute; reflexivity.
Qed.

(** C7: a console line gives the time of the event in RFC 3339 form, then
    the level tag, then the call site as zap's trimmed path, and goes to the
    standard error and to no other stream; the call site is captured in the
    entry and shown in the record of either sink.  Stated for a call with a
    call stack whose first frame is a real one, at a level of the
    vocabulary, at a time of our era. *)
Theorem console_line_format (w0 w : World) (cfg : loggerfx.LoggerConfig)
    (s : zap.SugaredLogger) (lvl : zapcore.Level) (msg : string)
    (frame : runtime.Frame) (rest : list runtime.Frame) :
  (loggerfx.New (Some cfg) w0).1 = Return (Some s, None) ->
  lvl ∈ vocabulary ->
  runtime.PC frame <> 0 ->
  civil (clock w) ->
  let w' := (zap.SugaredLogger_log s lvl msg (frame :: rest) w).2 in
  let site := caller_of (frame :: rest) in
  let place := AppendString (plain (zapcore.TrimmedPath site)) in
  (zapcore.Level_Enabled (console_threshold cfg) lvl = true ->
   write_failure w Stderr = None ->
   exists c, loggerfx.colorMap !! lvl = Some c /\
     console_records w w' =
       [ConsoleLine
          [AppendString (plain (time.Format_RFC3339 (clock w)));
           AppendString (colored c ("[" +:+ zapcore.Level_CapitalString lvl +:+ "]"));
           place]
          (Some msg) ""]) /\
  is_rfc3339 (time.Format_RFC3339 (clock w)) = true /\
  (forall st, st <> Stderr ->
     filter (fun b => is_console_line b = true) (on_stream st (added w w')) = []) /\
  (zapcore.Level_Enabled (file_threshold cfg) lvl = true ->
   write_failure w (file_stream cfg) = None ->
   file_records cfg w w' =
     [JSONLine [("level", AppendString (plain (zapcore.Level_String lvl)));
                ("ts", AppendEpochSeconds (clock w));
                ("caller", place);
                ("msg", AppendString (plain msg))]]) /\
  zapcore.Defined site = true /\
  zapcore.File site = runtime.File frame /\
  zapcore.Line site = runtime.Line frame /\
  zapcore.Function site = runtime.Function frame /\
  (forall dir pkg base : string,
     runtime.File frame = dir +:+ "/" +:+ pkg +:+ "/" +:+ base ->
     no_slash pkg = true -> no_slash base = true ->
     zapcore.TrimmedPath site = pkg +:+ "/" +:+ base +:+ ":" +:+ pretty (runtime.Line frame)).
Proof.
  intros Hnew Hl Hpc Hciv w' site place.
  apply New_returns_built in Hnew as ->.
  pose proof Hl as [c Hc]%colorMap_lookup_vocabulary.
  assert (Hw' : w' = logged cfg lvl c msg (frame :: rest) w).
  { subst w'. rewrite (log_colored _ _ c) by exact Hc. reflexivity. }
  assert (Hdef : zapcore.Defined site = true).
  { subst site. cbn. apply bool_decide_eq_true. exact Hpc. }
  assert (Hstack : zapcore.Entry_Stack (entry_of lvl (clock w) msg (frame :: rest)) = "").
  { cbn. rewrite (vocabulary_no_stack lvl Hl). reflexivity. }
  rewrite Hw'.
  split; [| split; [| split; [| split; [| split; [| split; [| split; [| split]]]]]]].
  - intros Hen Hok. exists c. split; [exact Hc |].
    rewrite console_records_logged, Hen, Hok. unfold console_record.
    rewrite Hstack. cbn [zapcore.Entry_Time zapcore.Entry_Level zapcore.Entry_Caller
                         zapcore.Entry_Message entry_of].
    fold site. rewrite Hdef. reflexivity.
  - apply Format_RFC3339_shape, Hciv.
  - intros st Hst. apply console_lines_only_on_stderr, Hst.
  - intros Hen Hok. rewrite file_records_logged, Hen, Hok. unfold file_record.
    rewrite Hstack. cbn [zapcore.Entry_Time zapcore.Entry_Level zapcore.Entry_Caller
                         zapcore.Entry_Message entry_of].
    fold site. rewrite Hdef. reflexivity.
  - exact Hdef.
  - reflexivity.
  - reflexivity.
  - reflexivity.
  - intros dir pkg base Hfile Hp Hb.
    apply (TrimmedPath_last_two site dir pkg base Hdef); assumption.
Qed.

(** An error logged from [/home/dev/go/src/app/main.go], line 17: the
    console line and the file record, both with the call site [app/main.go:17]. *)
Lemma console_line_format_witness :
  let w' := (zap.Error_ (built sample_config) "disk is gone" sample_stack open_world).2 in
  console_records open_world w' =
    [ConsoleLine
       [AppendString (plain "2026-10-31T09:05:07+01:00");
        AppendString (colored logger.ErrorColor "[ERROR]");
        AppendString (plain "app/main.go:17")]
       (Some "disk is gone") ""] /\
  file_records sample_config open_world w' =
    [JSONLine [("level", AppendString (plain "error"));
               ("ts", AppendEpochSeconds sample_time);
               ("caller", AppendString (plain "app/main.go:17"));
               ("msg", AppendString (plain "disk is gone"))]].
Proof.
  destruct (console_line_format open_world open_world sample_config (built sample_config)
              zapcore.ErrorLevel "disk is gone"
              {| runtime.PC := 4242; runtime.File := "/home/dev/go/src/app/main.go";
                 runtime.Line := 17; runtime.Function := "main.main" |}
              [{| runtime.PC := 4100; runtime.File := "/usr/local/go/src/runtime/proc.go";
                  runtime.Line := 283; runtime.Function := "runtime.main" |}])
    as (Hconsole & _ & _ & Hfile & _).
  - reflexivity.
  - apply elem_of_vocabulary. vm_compute. split; discriminate.
  - discriminate.
  - unfold civil. vm_compute. repeat split; discriminate.
  - split.
    + destruct Hconsole as (c & Hc & Hline); [reflexivity | reflexivity |].
      vm_compute in Hc. injection Hc as <-. exact Hline.
    + apply Hfile; reflexivity.
Defined.

(** C9: [New] returns an error exactly when [MkdirAll] of the configured
    path fails.  It checks no level: with a level name outside the
    vocabulary the construction goes through, and the core of that sink has
    the zero level, info, as its threshold. *)
Theorem New_fails_only_on_mkdir :
  (forall (w : World) (config : option loggerfx.LoggerConfig),
     (exists l err, (loggerfx.New config w).1 = Return (l, Some err)) <->
     (exists cfg, config = Some cfg /\
                  mkdir_failure w (loggerfx.File_Path (loggerfx.File cfg)) <> None)) /\
  (forall (w : World) (cfg : loggerfx.LoggerConfig),
     mkdir_failure w (loggerfx.File_Path (loggerfx.File cfg)) = None ->
     exists s w',
       loggerfx.New (Some cfg) w = (Return (Some s, None), w') /\
       zap.core (zap.base s) = zapcore.multiCore [file_core cfg; console_core cfg] /\
       (loggerfx.validateLogLevel (loggerfx.File_Level (loggerfx.File cfg)) = false ->
        zapcore.enab (file_core cfg) = zapcore.InfoLevel) /\
       (loggerfx.validateLogLevel (loggerfx.Console_Level (loggerfx.Console cfg)) = false ->
        zapcore.enab (console_core cfg) = zapcore.InfoLevel)).
Proof.
  split.
  - intros w [cfg|]; split.
    + intros (l & err & H).
      destruct (loggerfx.New (Some cfg) w) as [o w'] eqn:E. cbn in H. subst o.
      apply New_inv in E. exists cfg. split; [reflexivity |].
      destruct (mkdir_failure w _); [discriminate |]. destruct E as (_ & [=] & _).
    + intros (cfg' & [= <-] & Hne).
      destruct (mkdir_failure w _) as [cause|] eqn:E; [| congruence].
      rewrite (New_failure w cfg cause E). eauto.
    + intros (l & err & H). discriminate H.
    + intros (cfg & [=] & _).
  - intros w cfg H. exists (built cfg), (after_mkdir w (loggerfx.File_Path (loggerfx.File cfg))).
    split; [apply New_success, H |]. split; [reflexivity |].
    split; intros Hv; apply invalid_level_index, Hv.
Qed.

(** Levels "verbose" and "Info": a logger all the same, both sinks from info. *)
Lemma New_fails_only_on_mkdir_witness :
  exists s w',
    loggerfx.New (Some loose_config) open_world = (Return (Some s, None), w') /\
    zap.core (zap.base s) =
      zapcore.multiCore [file_core loose_config; console_core loose_config] /\
    zapcore.enab (file_core loose_config) = zapcore.InfoLevel /\
    zapcore.enab (console_core loose_config) = zapcore.InfoLevel.
Proof.
  destruct (proj2 New_fails_only_on_mkdir open_world loose_config)
    as (s & w' & Hnew & Hcore & Hfile & Hconsole).
  - reflexivity.
  - exists s, w'. split; [exact Hnew |]. split; [exact Hcore |]. split.
    + apply Hfile. reflexivity.
    + apply Hconsole. reflexivity.
Defined.

(** C10: the level encoder of the console works on the seven levels of the
    map and on no other.  For a level of the vocabulary the map holds a
    color and the tag is appended; for any other level the lookup gives nil
    and [Sprintf] on it panics with a nil dereference, which a log call at
    such a level meets as soon as the console takes the level.  When every
    event has a level of the vocabulary no call meets it: each ends as its
    level decides. *)
Theorem console_level_encoder_partial :
  (forall l : zapcore.Level,
     l ∈ vocabulary <->
     exists c, loggerfx.colorMap !! l = Some c /\
               loggerfx.consoleEncodeLevel l =
                 Return (AppendString
                           (colored c ("[" +:+ zapcore.Level_CapitalString l +:+ "]")))) /\
  (forall l : zapcore.Level,
     l ∉ vocabulary <->
     loggerfx.colorMap !! l = None /\
     loggerfx.consoleEncodeLevel l = Panic nil_dereference) /\
  (forall (cfg : loggerfx.LoggerConfig) (lvl : zapcore.Level) (msg : string)
          (stack : list runtime.Frame) (w : World),
     lvl ∉ vocabulary ->
     zapcore.Level_Enabled (console_threshold cfg) lvl = true ->
     (zap.SugaredLogger_log (built cfg) lvl msg stack w).1 = Panic nil_dereference) /\
  (forall (cfg : loggerfx.LoggerConfig) (lvl : zapcore.Level) (msg : string)
          (stack : list runtime.Frame) (w : World),
     lvl ∈ vocabulary ->
     (zap.SugaredLogger_log (built cfg) lvl msg stack w).1 = ending lvl msg).
Proof.
  split; [| split; [| split]].
  - intros l. rewrite <- colorMap_lookup_vocabulary. unfold loggerfx.consoleEncodeLevel.
    destruct (loggerfx.colorMap !! l) as [c|]; split.
    + intros _. exists c. split; reflexivity.
    + intros _. eauto.
    + intros [? [=]].
    + intros (c & [=] & _).
  - intros l. rewrite <- colorMap_lookup_None. unfold loggerfx.consoleEncodeLevel.
    destruct (loggerfx.colorMap !! l) as [c|]; split.
    + intros [=].
    + intros [[=] _].
    + intros _. split; reflexivity.
    + intros _. reflexivity.
  - intros cfg lvl msg stack w Hl Hen. apply log_uncolored; assumption.
  - intros cfg lvl msg stack w Hl.
    apply colorMap_lookup_vocabulary in Hl as [c Hc].
    rewrite (log_colored _ _ c) by exact Hc. reflexivity.
Qed.

(** A warning returns; a call at level 7, which no method of the
    vocabulary makes, panics in the console encoder. *)
Lemma console_level_encoder_partial_witness :
  (zap.Warn (built sample_config) "careful" sample_stack open_world).1 = Return tt /\
  (zap.SugaredLogger_log (built sample_config) 7 "stray" sample_stack open_world).1
    = Panic nil_dereference.
Proof.
  destruct console_level_encoder_partial as (_ & _ & Hout & Hin).
  split.
  - unfold zap.Warn. rewrite Hin; [reflexivity |].
    apply elem_of_vocabulary. vm_compute. split; discriminate.
  - apply Hout.
    + rewrite elem_of_vocabulary. vm_compute. intros [_ H]. apply H. reflexivity.
    + reflexivity.
Defined.

(** *** Further properties of the code *)

(** **** The level names and the configuration *)

(** X1: the level map inverts [Level.String] on the seven levels and holds
    nothing else: a name is a key with value [lvl] exactly when [lvl] is one
    of the seven levels and the name is the one [lvl] prints as. *)
Theorem level_names_round_trip (name : string) (lvl : zapcore.Level) :
  loggerfx.logLevelMap !! name = Some lvl <->
  lvl ∈ vocabulary /\ name = zapcore.Level_String lvl.
Proof.
  rewrite logLevelMap_lookup_Some. unfold vocabulary.
  rewrite !elem_of_cons, elem_of_nil.
  unfold zapcore.DebugLevel, zapcore.InfoLevel, zapcore.WarnLevel,
    zapcore.ErrorLevel, zapcore.DPanicLevel, zapcore.PanicLevel, zapcore.FatalLevel.
  split.
  - intros H. repeat (destruct H as [[-> ->] | H]; [split; [tauto | reflexivity] |]).
    destruct H as [-> ->]. split; [tauto | reflexivity].
  - intros [H ->]. repeat (destruct H as [-> | H]; [cbn; tauto |]). destruct H.
Qed.

Lemma required_true (s : string) : validator.required s = true <-> s <> "".
Proof. unfold validator.required. rewrite negb_true_iff, bool_decide_eq_false. reflexivity. Qed.

Lemma validated_index (name : string) :
  loggerfx.validateLogLevel name = true ->
  loggerfx.logLevelMap_index name ∈ vocabulary /\
  zapcore.Level_String (loggerfx.logLevelMap_index name) = name.
Proof.
  unfold loggerfx.validateLogLevel, loggerfx.logLevelMap_index.
  destruct (loggerfx.logLevelMap !! name) as [l|] eqn:E; [intros _ | discriminate].
  cbn [default].
  apply logLevelMap_lookup_Some in E. unfold vocabulary.
  rewrite !elem_of_cons, elem_of_nil.
  unfold zapcore.DebugLevel, zapcore.InfoLevel, zapcore.WarnLevel,
    zapcore.ErrorLevel, zapcore.DPanicLevel, zapcore.PanicLevel, zapcore.FatalLevel.
  repeat (destruct E as [[-> ->] | E]; [split; [tauto | reflexivity] |]).
  destruct E as [-> ->]. split; [tauto | reflexivity].
Qed.

(** X2: for a configuration that passes its [validate] tags, the two
    lookups of [New] hit: the threshold of each sink is one of the seven
    levels and prints back as the name the configuration gives, and the
    path of the log directory is not empty. *)
Theorem validated_config_thresholds (cfg : loggerfx.LoggerConfig) :
  loggerfx.validate_config cfg = true ->
  file_threshold cfg ∈ vocabulary /\
  zapcore.Level_String (file_threshold cfg) = loggerfx.File_Level (loggerfx.File cfg) /\
  console_threshold cfg ∈ vocabulary /\
  zapcore.Level_String (console_threshold cfg) =
    loggerfx.Console_Level (loggerfx.Console cfg) /\
  loggerfx.File_Path (loggerfx.File cfg) <> "".
Proof.
  unfold loggerfx.validate_config. rewrite !andb_true_iff.
  intros [[[[_ Hf] Hp] _] Hc].
  apply validated_index in Hf as [? ?], Hc as [? ?]. apply required_true in Hp.
  unfold file_threshold, console_threshold. auto.
Qed.

(** The thresholds of the error/debug configuration print as its names. *)
Lemma validated_config_thresholds_witness :
  zapcore.Level_String (file_threshold sample_config) = "error" /\
  zapcore.Level_String (console_threshold sample_config) = "debug".
Proof.
  destruct (validated_config_thresholds sample_config) as (_ & Hf & _ & Hc & _);
    [reflexivity |].
  split; [exact Hf | exact Hc].
Defined.

(** **** Paths *)

Lemma append_empty_r (s : string) : s +:+ "" = s.
Proof. induction s as [| a s IH]; [reflexivity |]. rewrite append_cons, IH. reflexivity. Qed.

Lemma rev_app_append (s acc : string) :
  String.rev_app s acc = String.rev_app s "" +:+ acc.
Proof.
  revert acc. induction s as [| a s IH]; intros acc; [reflexivity |].
  cbn [String.rev_app]. rewrite (IH (String a acc)), (IH (String a "")), append_assoc.
  reflexivity.
Qed.

Lemma rev_cons (a : ascii) (s : string) :
  String.rev (String a s) = String.rev s +:+ String a "".
Proof. unfold String.rev. cbn [String.rev_app]. apply rev_app_append. Qed.

Lemma split_slash_aux_no_slash (cur e : string) :
  no_slash e = true -> strings.split_slash_aux cur e = [String.rev cur +:+ e].
Proof.
  revert cur. induction e as [| a e IH]; intros cur; cbn [no_slash strings.split_slash_aux].
  - intros _. rewrite append_empty_r. reflexivity.
  - intros [Ha He]%andb_prop. apply negb_true_iff, bool_decide_eq_false in Ha.
    rewrite decide_False by exact Ha.
    rewrite IH by exact He. rewrite rev_cons, append_assoc. reflexivity.
Qed.

Lemma split_slash_aux_app (cur s e : string) :
  strings.split_slash_aux cur (s +:+ String "/" e) =
  strings.split_slash_aux cur s ++ strings.split_slash e.
Proof.
  revert cur. induction s as [| a s IH]; intros cur.
  - rewrite append_nil. cbn [strings.split_slash_aux]. rewrite decide_True by reflexivity.
    reflexivity.
  - rewrite append_cons. cbn [strings.split_slash_aux].
    case_decide; rewrite IH; reflexivity.
Qed.

Lemma split_slash_snoc (s e : string) :
  no_slash e = true ->
  strings.split_slash (s +:+ String "/" e) = strings.split_slash s ++ [e].
Proof.
  intros He. unfold strings.split_slash at 1. rewrite split_slash_aux_app.
  unfold strings.split_slash. rewrite (split_slash_aux_no_slash "" e He). reflexivity.
Qed.

Lemma plain_element_inv (e : string) :
  plain_element e = true -> no_slash e = true /\ e <> "" /\ e <> "." /\ e <> "..".
Proof.
  unfold plain_element. rewrite !andb_true_iff, !negb_true_iff, !bool_decide_eq_false. tauto.
Qed.

(** A plain element at the end of a path stays at the end of the cleaned
    path. *)
Lemma clean_elems_snoc (rooted : bool) (stack xs : list string) (e : string) :
  e <> "" -> e <> "." -> e <> ".." ->
  path.clean_elems rooted stack (xs ++ [e]) = path.clean_elems rooted stack xs ++ [e].
Proof.
  intros H1 H2 H3. revert stack.
  induction xs as [| x xs IH]; intros stack; cbn [app path.clean_elems].
  - rewrite !decide_False by assumption. reflexivity.
  - repeat case_decide; try apply IH.
    destruct stack as [| top below]; [destruct rooted |]; try apply IH.
    case_decide; apply IH.
Qed.

Lemma no_slash_app (s1 s2 : string) : no_slash (s1 +:+ s2) = no_slash s1 && no_slash s2.
Proof.
  induction s1 as [| a s1 IH]; [reflexivity |].
  rewrite append_cons. cbn [no_slash]. rewrite IH, andb_assoc. reflexivity.
Qed.

Lemma no_slash_rev (s : string) : no_slash (String.rev s) = no_slash s.
Proof.
  induction s as [| a s IH]; [reflexivity |].
  rewrite rev_cons, no_slash_app, IH. cbn [no_slash]. rewrite andb_true_r, andb_comm.
  reflexivity.
Qed.

Lemma split_slash_aux_no_slashes (cur s : string) :
  no_slash cur = true -> Forall (fun e => no_slash e = true) (strings.split_slash_aux cur s).
Proof.
  revert cur. induction s as [| a s IH]; intros cur Hc; cbn [strings.split_slash_aux].
  - constructor; [rewrite no_slash_rev; exact Hc | constructor].
  - case_decide as Ha.
    + constructor; [rewrite no_slash_rev; exact Hc | apply IH; reflexivity].
    + apply IH. cbn [no_slash]. rewrite Hc, andb_true_r.
      apply negb_true_iff, bool_decide_eq_false. exact Ha.
Qed.

Lemma clean_elems_kept (rooted : bool) (stack xs : list string) :
  Forall kept stack -> Forall (fun e => no_slash e = true) xs ->
  Forall kept (path.clean_elems rooted stack xs).
Proof.
  intros Hs Hx. revert stack Hs.
  induction Hx as [| x xs Hx _ IH]; intros stack Hs; cbn [path.clean_elems].
  - apply Forall_rev, Hs.
  - repeat case_decide; try (apply IH; assumption).
    + destruct stack as [| top below]; [destruct rooted |].
      * apply IH, Hs.
      * apply IH. constructor; [| exact Hs]. subst x. repeat split; discriminate.
      * case_decide.
        -- apply IH. constructor; [| exact Hs]. subst x. repeat split; discriminate.
        -- apply IH. inversion Hs; assumption.
    + apply IH. constructor; [| exact Hs]. repeat split; assumption.
Qed.

Lemma strings_Join_snoc (cs : list string) (e : string) :
  strings.Join (cs ++ [e]) "/" =
  match cs with
  | [] => e
  | _ :: _ => strings.Join cs "/" +:+ "/" +:+ e
  end.
Proof.
  induction cs as [| c cs IH]; [reflexivity |].
  cbn [app]. destruct cs as [| c' cs].
  - reflexivity.
  - change (strings.Join (c :: (c' :: cs) ++ [e]) "/")
      with (c +:+ "/" +:+ strings.Join ((c' :: cs) ++ [e]) "/").
    rewrite IH.
    change (strings.Join (c :: c' :: cs) "/") with (c +:+ "/" +:+ strings.Join (c' :: cs) "/").
    rewrite !append_assoc. reflexivity.
Qed.

Lemma strings_Join_kept (cs : list string) :
  Forall kept cs -> cs <> [] ->
  strings.Join cs "/" <> "" /\ strings.Join cs "/" <> "." /\ strings.Join cs "/" <> "/".
Proof.
  intros H Hne. destruct H as [| c cs (Hs & He & Hd) _]; [done |].
  destruct cs as [| c' cs].
  - cbn [strings.Join]. repeat split; try assumption.
    intros ->. discriminate Hs.
  - change (strings.Join (c :: c' :: cs) "/") with (c +:+ "/" +:+ strings.Join (c' :: cs) "/").
    destruct c as [| a c]; [done |]. rewrite append_cons.
    destruct c as [| b c]; [rewrite append_nil | rewrite append_cons];
      repeat split; discriminate.
Qed.

(** The cleaned path with one more plain element. *)
Lemma Clean_snoc (p e : string) :
  p <> "" -> plain_element e = true ->
  path.Clean (p +:+ "/" +:+ e) =
  if decide (path.Clean p = ".") then e
  else if decide (path.Clean p = "/") then "/" +:+ e
  else path.Clean p +:+ "/" +:+ e.
Proof.
  intros Hp (Hs & He1 & He2 & He3)%plain_element_inv.
  destruct p as [| a p]; [done |].
  rewrite append_cons. unfold path.Clean. cbv zeta.
  rewrite <- append_cons.
  change (String a p +:+ "/" +:+ e) with (String a p +:+ String "/" e).
  rewrite split_slash_snoc by exact Hs.
  rewrite clean_elems_snoc by assumption.
  rewrite strings_Join_snoc.
  pose proof (clean_elems_kept (bool_decide (a = "/"%char)) []
                (strings.split_slash (String a p)) (Forall_nil_2 _)
                (split_slash_aux_no_slashes "" (String a p) eq_refl)) as Hk.
  destruct (path.clean_elems _ [] (strings.split_slash (String a p))) as [| c cs] eqn:Ec.
  - cbn [strings.Join]. destruct (bool_decide (a = "/"%char)).
    + rewrite append_empty_r. cbn. rewrite decide_False; [reflexivity |].
      rewrite append_cons. discriminate.
    + cbn. rewrite decide_False by exact He1. reflexivity.
  - destruct (strings_Join_kept (c :: cs) Hk) as (J1 & J2 & J3); [discriminate |].
    set (j := strings.Join (c :: cs) "/") in *.
    destruct (bool_decide (a = "/"%char)).
    + rewrite !append_cons, !append_nil.
      repeat case_decide; try discriminate; try reflexivity.
      exfalso. apply J1. congruence.
    + repeat case_decide; try reflexivity; try contradiction.
      exfalso. destruct j; [done | rewrite append_cons in *; discriminate].
Qed.

(** [path.Join] of a directory and a plain name. *)
Lemma path_Join_two (p e : string) :
  plain_element e = true ->
  path.Join [p; e] =
  if decide (p = "") then e
  else if decide (path.Clean p = ".") then e
  else if decide (path.Clean p = "/") then "/" +:+ e
  else path.Clean p +:+ "/" +:+ e.
Proof.
  intros He. pose proof (plain_element_inv e He) as (Hs & He1 & He2 & He3).
  unfold path.Join. case_decide as Hp.
  - subst p. rewrite filter_cons_False by (intros H; apply H; reflexivity).
    rewrite filter_cons_True by exact He1. rewrite filter_nil.
    cbn [strings.Join]. unfold path.Clean. destruct e as [| a e]; [done |].
    cbv zeta. rewrite (split_slash_aux_no_slash "" (String a e) Hs : strings.split_slash _ = _).
    rewrite append_nil. cbn [path.clean_elems].
    replace (bool_decide (a = "/"%char)) with false
      by (symmetry; apply bool_decide_eq_false; intros ->; discriminate Hs).
    repeat case_decide; try contradiction; try reflexivity.
  - rewrite filter_cons_True by exact Hp. rewrite filter_cons_True by exact He1.
    rewrite filter_nil.
    change (strings.Join [p; e] "/") with (p +:+ "/" +:+ e).
    apply Clean_snoc; assumption.
Qed.

Lemma Clean_nonempty (p : string) : path.Clean p <> "".
Proof.
  unfold path.Clean. destruct p as [| a p']; [discriminate |].
  cbv zeta. case_decide as H; [discriminate | exact H].
Qed.

Lemma path_Join_cons_nonempty (e : string) (rest : list string) :
  e <> "" -> path.Join (e :: rest) <> "".
Proof.
  intros He. unfold path.Join. rewrite filter_cons_True by exact He.
  apply Clean_nonempty.
Qed.

(** X3: the log file of the logger [New] returns is [server.log] in the
    cleaned directory of the configuration: [server.log] itself, in the
    working directory, for an empty path or one that cleans to [.],
    [/server.log] for the root, and the cleaned path, a separator and
    [server.log] for any other. *)
Theorem log_file_name (w : World) (cfg : loggerfx.LoggerConfig) (s : zap.SugaredLogger) :
  (loggerfx.New (Some cfg) w).1 = Return (Some s, None) ->
  let dir := loggerfx.File_Path (loggerfx.File cfg) in
  exists to_file to_console,
    zap.core (zap.base s) = zapcore.multiCore [to_file; to_console] /\
    zapcore.out to_console = zapcore.lockedWriteSyncer (zapcore.File_ Stderr) /\
    zapcore.out to_file =
      zapcore.writerWrapper
        {| lumberjack.Filename :=
             if decide (dir = "") then "server.log"
             else if decide (path.Clean dir = ".") then "server.log"
             else if decide (path.Clean dir = "/") then "/server.log"
             else path.Clean dir +:+ "/server.log" |}.
Proof.
  intros ->%New_returns_built dir.
  exists (file_core cfg), (console_core cfg).
  split; [reflexivity |]. split; [reflexivity |].
  unfold file_core. cbn [zapcore.out]. rewrite path_Join_two by reflexivity.
  reflexivity.
Qed.

(** With the directory [/var/log/app] the file is [/var/log/app/server.log]. *)
Lemma log_file_name_witness :
  exists to_file to_console,
    zap.core (zap.base (built sample_config)) = zapcore.multiCore [to_file; to_console] /\
    zapcore.out to_file =
      zapcore.writerWrapper {| lumberjack.Filename := "/var/log/app/server.log" |}.
Proof.
  destruct (log_file_name open_world sample_config (built sample_config))
    as (fc & cc & Hcore & _ & Hout); [reflexivity |].
  exists fc, cc. split; [exact Hcore |]. rewrite Hout. reflexivity.
Defined.

(** **** The defaults of the configuration *)

Lemma init_by_paths (pkg : string) (defaults : gmap string viper.value) :
  loggerfx.init pkg defaults =
  viper.set_deep ["logs"; "console"] "level" (viper.Str "info")
    (viper.set_deep ["logs"; "file"] "level" (viper.Str "info")
       (viper.set_deep ["logs"; "file"] "path"
          (viper.Str (path.Join ["/var/log"; pkg])) defaults)).
Proof. reflexivity. Qed.

Lemma init_file_path (pkg : string) (defaults : gmap string viper.value) :
  viper.searchMap (loggerfx.init pkg defaults) ["logs"; "file"; "path"] =
  Some (viper.Str (path.Join ["/var/log"; pkg])).
Proof.
  rewrite init_by_paths. cbn [viper.set_deep viper.searchMap].
  rewrite !lookup_insert_eq.
  rewrite lookup_insert_ne by discriminate.
  rewrite lookup_insert_eq, lookup_insert_ne by discriminate.
  rewrite !lookup_insert_eq. reflexivity.
Qed.

(** X4: the defaults [init] registers pass the validation of the fields
    they stand in for, whatever the package name and whatever was
    registered before: both levels read back as [info], the path reads
    back as the join of [/var/log] and the package name, which is never
    empty, and a configuration made of the three is valid. *)
Theorem init_defaults_pass_validation (pkg : string) (defaults : gmap string viper.value) :
  let d := loggerfx.init pkg defaults in
  viper.searchMap d ["logs"; "file"; "path"] =
    Some (viper.Str (path.Join ["/var/log"; pkg])) /\
  viper.searchMap d ["logs"; "file"; "level"] = Some (viper.Str loggerfx.InfoLevel) /\
  viper.searchMap d ["logs"; "console"; "level"] = Some (viper.Str loggerfx.InfoLevel) /\
  loggerfx.validate_config
    {| loggerfx.File := {| loggerfx.File_Level := loggerfx.InfoLevel;
                           loggerfx.File_Path := path.Join ["/var/log"; pkg] |};
       loggerfx.Console := {| loggerfx.Console_Level := loggerfx.InfoLevel |} |} = true.
Proof.
  cbv zeta. split; [apply init_file_path |].
  rewrite init_by_paths. cbn [viper.set_deep viper.searchMap].
  repeat split.
  - rewrite !lookup_insert_eq.
    rewrite lookup_insert_ne by discriminate.
    rewrite !lookup_insert_eq. reflexivity.
  - rewrite !lookup_insert_eq. reflexivity.
  - unfold loggerfx.validate_config.
    cbn [loggerfx.File loggerfx.Console loggerfx.File_Level loggerfx.File_Path
         loggerfx.Console_Level].
    apply andb_true_intro; split; [| reflexivity].
    apply andb_true_intro; split; [| reflexivity].
    apply andb_true_intro; split; [reflexivity |].
    apply required_true, path_Join_cons_nonempty. discriminate.
Qed.

(** X5: for a package name that is a plain path element the default log
    directory is [/var/log/] and the name. *)
Theorem init_default_path (pkg : string) (defaults : gmap string viper.value) :
  plain_element pkg = true ->
  viper.searchMap (loggerfx.init pkg defaults) ["logs"; "file"; "path"] =
  Some (viper.Str ("/var/log/" +:+ pkg)).
Proof.
  intros Hp. rewrite init_file_path, path_Join_two by exact Hp. reflexivity.
Qed.

Lemma init_default_path_witness :
  viper.searchMap (loggerfx.init "arsenal" sample_defaults) ["logs"; "file"; "path"] =
  Some (viper.Str "/var/log/arsenal").
Proof. apply (init_default_path "arsenal" sample_defaults). reflexivity. Defined.

(** X6: [init] touches its three leaves only: every other leaf of the
    sections below [logs], and every top-level key other than [logs], reads
    as before. *)
Theorem init_keeps_other_defaults (pkg : string) (defaults : gmap string viper.value)
    (section leaf : string) :
  (section, leaf) ∉ [("file", "path"); ("file", "level"); ("console", "level")] ->
  viper.searchMap (loggerfx.init pkg defaults) ["logs"; section; leaf] =
    viper.searchMap defaults ["logs"; section; leaf] /\
  (forall k, k <> "logs" -> loggerfx.init pkg defaults !! k = defaults !! k).
Proof.
  rewrite !not_elem_of_cons. intros (H1 & H2 & H3 & _).
  rewrite init_by_paths. cbn [viper.set_deep viper.searchMap]. split.
  - rewrite !lookup_insert_eq.
    destruct (decide (section = "console")) as [-> | Hc];
      [assert (leaf <> "level") by congruence
      | destruct (decide (section = "file")) as [-> | Hf];
        [assert (leaf <> "level") by congruence; assert (leaf <> "path") by congruence |]].
    all: destruct (defaults !! "logs") as [[s | logs] |] eqn:El.
    all: simplify_map_eq.
    all: repeat case_match; simplify_map_eq; try done.
  - intros k Hk. rewrite !lookup_insert_ne by congruence. reflexivity.
Qed.

(** A size limit and a port registered before are still there. *)
Lemma init_keeps_other_defaults_witness :
  viper.searchMap (loggerfx.init "arsenal" sample_defaults) ["logs"; "file"; "maxsize"] =
    Some (viper.Str "100") /\
  viper.searchMap (loggerfx.init "arsenal" sample_defaults) ["server"; "port"] =
    Some (viper.Str "8080").
Proof.
  destruct (init_keeps_other_defaults "arsenal" sample_defaults "file" "maxsize")
    as [Hleaf Htop].
  - apply (bool_decide_unpack _). vm_compute. exact I.
  - split.
    + rewrite Hleaf. vm_compute. reflexivity.
    + cbn [viper.searchMap]. rewrite Htop by discriminate. vm_compute. reflexivity.
Defined.

(** **** Where a log call writes *)

Lemma grown_refl (P : Stream * buffer -> Prop) (w : World) : grown P w w.
Proof. exists []. split; [symmetry; apply app_nil_r | constructor]. Qed.

Lemma grown_put (P : Stream * buffer -> Prop) (w w1 : World) (st : Stream) (b : buffer) :
  P (st, b) -> grown P w w1 -> grown P w (put st b w1).
Proof.
  intros HP (tr & Hw & Htr). exists (tr ++ wrote st b w1). split.
  - rewrite written_put, Hw, app_assoc. reflexivity.
  - apply Forall_app. split; [exact Htr |].
    unfold wrote. destruct (write_failure w1 st); repeat constructor. exact HP.
Qed.

Lemma added_grown (P : Stream * buffer -> Prop) (w w1 : World) :
  grown P w w1 -> Forall P (added w w1).
Proof.
  intros (tr & Hw & Htr). unfold added. rewrite Hw, drop_app_length. exact Htr.
Qed.

(** At every level, whatever the color map holds and however the call
    ends, each write of a log call is one to a sink. *)
Lemma log_steps_grown cfg lvl msg stack w :
  grown (to_a_sink cfg (entry_of lvl (clock w) msg stack)) w
    (log_steps cfg lvl msg stack w).2.
Proof.
  unfold log_steps, terminal, lift.
  destruct (negb _ && negb _); [apply grown_refl |].
  unfold mbind, M_bind, time_Now, mret, M_ret, panic.
  destruct stack;
    destruct (zapcore.Level_Enabled (file_threshold cfg) lvl);
    destruct (zapcore.Level_Enabled (console_threshold cfg) lvl);
    destruct (loggerfx.colorMap !! lvl).
  all: run_writes.
  all: destruct (write_failure w Stderr); destruct (write_failure w (file_stream cfg)).
  all: cbn [errs_of from_option app]; run_writes.
  all: cbn [snd].
  all: repeat first
         [ apply grown_refl
         | apply grown_put;
           [first [left; split; reflexivity | right; split; reflexivity] |] ].
Qed.

(** X7: a log call on the logger of [New], at any level and in any world,
    writes to its two sinks only: each buffer it adds is either on the
    standard error and no JSON record, or the JSON record of this call on
    [server.log] in the configured directory. *)
Theorem log_writes_only_to_sinks (w0 w : World) (cfg : loggerfx.LoggerConfig)
    (s : zap.SugaredLogger) (lvl : zapcore.Level) (msg : string)
    (stack : list runtime.Frame) (st : Stream) (b : buffer) :
  (loggerfx.New (Some cfg) w0).1 = Return (Some s, None) ->
  (st, b) ∈ added w (zap.SugaredLogger_log s lvl msg stack w).2 ->
  (st = Stderr /\ is_json_line b = false) \/
  (st = NamedFile (path.Join [loggerfx.File_Path (loggerfx.File cfg); "server.log"]) /\
   b = file_record (entry_of lvl (clock w) msg stack)).
Proof.
  intros ->%New_returns_built Hin.
  rewrite log_by_steps in Hin.
  pose proof (added_grown _ _ _ (log_steps_grown cfg lvl msg stack w)) as H.
  rewrite Forall_forall in H. exact (H _ Hin).
Qed.

(** The first write of an error call is its record in the log file. *)
Lemma log_writes_only_to_sinks_witness :
  let ent := entry_of zapcore.ErrorLevel sample_time "disk is gone" sample_stack in
  (NamedFile "/var/log/app/server.log" = Stderr /\ is_json_line (file_record ent) = false) \/
  (NamedFile "/var/log/app/server.log" = NamedFile "/var/log/app/server.log" /\
   file_record ent = file_record ent).
Proof.
  apply (log_writes_only_to_sinks open_world open_world sample_config (built sample_config)
           zapcore.ErrorLevel "disk is gone" sample_stack
           (NamedFile "/var/log/app/server.log")
           (file_record (entry_of zapcore.ErrorLevel sample_time "disk is gone" sample_stack))).
  - reflexivity.
  - apply (list_elem_of_lookup_2 _ 0%nat). vm_compute. reflexivity.
Defined.

Lemma log_steps_untaken cfg lvl msg stack w :
  zapcore.Level_Enabled (file_threshold cfg) lvl = false ->
  zapcore.Level_Enabled (console_threshold cfg) lvl = false ->
  log_steps cfg lvl msg stack w = (ending lvl msg, w).
Proof. intros Hf Hc. unfold log_steps. rewrite Hf, Hc. reflexivity. Qed.

(** X8: a call below both thresholds leaves the world as it is, and still
    ends as its level decides: below its thresholds a panic call panics
    with its message and a fatal call exits with status 1, nothing being
    written; any other call just returns. *)
Theorem untaken_call_only_ends (w0 w : World) (cfg : loggerfx.LoggerConfig)
    (s : zap.SugaredLogger) (lvl : zapcore.Level) (msg : string)
    (stack : list runtime.Frame) :
  (loggerfx.New (Some cfg) w0).1 = Return (Some s, None) ->
  lvl < file_threshold cfg -> lvl < console_threshold cfg ->
  zap.SugaredLogger_log s lvl msg stack w =
  (if decide (lvl = zapcore.PanicLevel) then Panic msg
   else if decide (lvl = zapcore.FatalLevel) then Exit 1
   else Return tt, w).
Proof.
  intros ->%New_returns_built Hf Hc. rewrite log_by_steps.
  apply log_steps_untaken; unfold zapcore.Level_Enabled; apply bool_decide_eq_false; lia.
Qed.

(** With both sinks from fatal a panic call panics and writes nothing. *)
Lemma untaken_call_only_ends_witness :
  zap.Panic_ (built quiet_config) "boom" sample_stack open_world = (Panic "boom", open_world).
Proof.
  apply (untaken_call_only_ends open_world open_world quiet_config (built quiet_config)
           zapcore.PanicLevel "boom" sample_stack); reflexivity.
Defined.

(** X9: when the log file rejects the write of an event the file sink
    takes, and the standard error takes writes, the call puts nothing in
    the file and reports the fault on the standard error: one line with the
    time of the event and the error of the file, written last, after the
    line of the console sink if there is one. *)
Theorem file_fault_reported (w0 w : World) (cfg : loggerfx.LoggerConfig)
    (s : zap.SugaredLogger) (lvl : zapcore.Level) (msg : string)
    (frame : runtime.Frame) (rest : list runtime.Frame) (e : error) :
  (loggerfx.New (Some cfg) w0).1 = Return (Some s, None) ->
  lvl ∈ vocabulary ->
  zapcore.Level_Enabled (file_threshold cfg) lvl = true ->
  write_failure w (file_stream cfg) = Some e ->
  write_failure w Stderr = None ->
  let w' := (zap.SugaredLogger_log s lvl msg (frame :: rest) w).2 in
  on_stream (file_stream cfg) (added w w') = [] /\
  filter (fun b => is_console_line b = false) (on_stream Stderr (added w w')) =
    [WriteErrorLine (clock w) [e]] /\
  last (added w w') = Some (Stderr, WriteErrorLine (clock w) [e]).
Proof.
  intros ->%New_returns_built [c Hc]%colorMap_lookup_vocabulary Hen Hf He w'. subst w'.
  rewrite (log_colored _ _ c) by exact Hc. cbn [snd].
  rewrite added_logged. unfold log_trace, wrote. rewrite Hen, Hf, He.
  cbn [negb andb]. unfold on_stream, file_stream in *.
  destruct (zapcore.Level_Enabled (console_threshold cfg) lvl);
    cbn -[console_record entry_of]; repeat case_decide; try congruence; done.
Qed.

(** An error call on a read-only log file: the last write is the report. *)
Lemma file_fault_reported_witness :
  last (added file_broken_world
          (zap.Error_ (built sample_config) "disk is gone" sample_stack file_broken_world).2) =
  Some (Stderr, WriteErrorLine sample_time [read_only]).
Proof.
  destruct (file_fault_reported open_world file_broken_world sample_config
              (built sample_config) zapcore.ErrorLevel "disk is gone"
              {| runtime.PC := 4242; runtime.File := "/home/dev/go/src/app/main.go";
                 runtime.Line := 17; runtime.Function := "main.main" |}
              [{| runtime.PC := 4100; runtime.File := "/usr/local/go/src/runtime/proc.go";
                  runtime.Line := 283; runtime.Function := "runtime.main" |}]
              read_only)
    as (_ & _ & Hlast).
  - reflexivity.
  - apply elem_of_vocabulary. vm_compute. split; discriminate.
  - reflexivity.
  - reflexivity.
  - reflexivity.
  - exact Hlast.
Defined.

(** X10: when both streams reject writes, a call at one of the seven
    levels leaves no write at all, not even a report of the faults, and
    ends as its level decides. *)
Theorem faults_of_both_streams_silent (w0 w : World) (cfg : loggerfx.LoggerConfig)
    (s : zap.SugaredLogger) (lvl : zapcore.Level) (msg : string)
    (stack : list runtime.Frame) :
  (loggerfx.New (Some cfg) w0).1 = Return (Some s, None) ->
  lvl ∈ vocabulary ->
  is_Some (write_failure w (file_stream cfg)) ->
  is_Some (write_failure w Stderr) ->
  (zap.SugaredLogger_log s lvl msg stack w).1 = ending lvl msg /\
  added w (zap.SugaredLogger_log s lvl msg stack w).2 = [].
Proof.
  intros ->%New_returns_built [c Hc]%colorMap_lookup_vocabulary [e1 H1] [e2 H2].
  rewrite (log_colored _ _ c) by exact Hc. split; [reflexivity |]. cbn [snd].
  rewrite added_logged. unfold log_trace, wrote. rewrite H1, H2.
  destruct (negb _ && negb _); [reflexivity |]. cbv zeta.
  destruct stack, (zapcore.Level_Enabled (file_threshold cfg) lvl),
    (zapcore.Level_Enabled (console_threshold cfg) lvl); reflexivity.
Qed.

(** An error call with a read-only log file and a closed standard error
    returns and leaves nothing. *)
Lemma faults_of_both_streams_silent_witness :
  (zap.Error_ (built sample_config) "disk is gone" sample_stack all_broken_world).1 =
    Return tt /\
  added all_broken_world
    (zap.Error_ (built sample_config) "disk is gone" sample_stack all_broken_world).2 = [].
Proof.
  apply (faults_of_both_streams_silent open_world all_broken_world sample_config
           (built sample_config) zapcore.ErrorLevel "disk is gone" sample_stack).
  - reflexivity.
  - apply elem_of_vocabulary. vm_compute. split; discriminate.
  - exists read_only. reflexivity.
  - exists closed_pipe. reflexivity.
Defined.

(** X11: a call whose call site cannot be found, both sinks taking the
    level and both streams taking writes: the logger first reports the
    missing caller on the standard error, and the event still reaches both
    sinks, its file record without the [caller] member and its console
    line without the caller column. *)
Theorem unknown_call_site (w0 w : World) (cfg : loggerfx.LoggerConfig)
    (s : zap.SugaredLogger) (lvl : zapcore.Level) (msg : string) :
  (loggerfx.New (Some cfg) w0).1 = Return (Some s, None) ->
  lvl ∈ vocabulary ->
  zapcore.Level_Enabled (file_threshold cfg) lvl = true ->
  zapcore.Level_Enabled (console_threshold cfg) lvl = true ->
  write_failure w (file_stream cfg) = None ->
  write_failure w Stderr = None ->
  exists c, loggerfx.colorMap !! lvl = Some c /\
    added w (zap.SugaredLogger_log s lvl msg [] w).2 =
      [(Stderr, CheckErrorLine (clock w));
       (file_stream cfg,
        JSONLine [("level", AppendString (plain (zapcore.Level_String lvl)));
                  ("ts", AppendEpochSeconds (clock w));
                  ("msg", AppendString (plain msg))]);
       (Stderr,
        ConsoleLine
          [AppendString (plain (time.Format_RFC3339 (clock w)));
           AppendString (colored c ("[" +:+ zapcore.Level_CapitalString lvl +:+ "]"))]
          (Some msg) "")].
Proof.
  intros ->%New_returns_built [c Hc]%colorMap_lookup_vocabulary Hf Hcn Hwf Hwc.
  exists c. split; [exact Hc |].
  rewrite (log_colored _ _ c) by exact Hc. cbn [snd].
  rewrite added_logged. unfold log_trace, wrote. rewrite Hf, Hcn, Hwf, Hwc.
  reflexivity.
Qed.

(** An info call without a call stack leaves three writes. *)
Lemma unknown_call_site_witness :
  length (added open_world (zap.Info (built default_config) "hello" [] open_world).2) = 3%nat.
Proof.
  destruct (unknown_call_site open_world open_world default_config (built default_config)
              zapcore.InfoLevel "hello") as (c & _ & Hadded).
  - reflexivity.
  - apply elem_of_vocabulary. vm_compute. split; discriminate.
  - reflexivity.
  - reflexivity.
  - reflexivity.
  - reflexivity.
  - unfold zap.Info. rewrite Hadded. reflexivity.
Defined.

(** X12: the logger [Module] hands to fx for its own events is the logger
    of the application without the sugar: a call on it reaches the same
    cores and does what the same call on the sugared logger does, in every
    world. *)
Theorem fx_events_through_same_sinks (s : zap.SugaredLogger) (lvl : zapcore.Level)
    (msg : string) (stack : list runtime.Frame) (w : World) :
  zap.core (loggerfx.fx_event_logger s) = zap.core (zap.base s) /\
  zap.Logger_Log (loggerfx.fx_event_logger s) lvl msg stack w =
  zap.SugaredLogger_log s lvl msg stack w.
Proof.
  split; [reflexivity |].
  unfold zap.Logger_Log, zap.SugaredLogger_log, loggerfx.fx_event_logger.
  assert (Hc : forall l m st w1, zap.Logger_check (zap.Desugar s) l m st w1 =
                                 zap.Logger_check (zap.base s) l m st w1) by reflexivity.
  unfold mbind, M_bind. rewrite Hc.
  destruct (bool_decide (lvl < zapcore.DPanicLevel)
            && negb (zapcore.Core_Enabled (zap.core (zap.base s)) lvl)) eqn:E;
    [| reflexivity].
  unfold zap.Logger_check. rewrite E. reflexivity.
Qed.

(** **** The hooks of [infofx] *)

Lemma log_trace_same cfg lvl c msg stack w w1 :
  clock w1 = clock w -> write_failure w1 = write_failure w ->
  log_trace cfg lvl c msg stack w1 = log_trace cfg lvl c msg stack w.
Proof. intros Hc Hf. unfold log_trace, wrote. rewrite Hc, Hf. reflexivity. Qed.

Lemma written_logged_all cfg here callers calls w w1 :
  clock w1 = clock w -> write_failure w1 = write_failure w ->
  written (logged_all cfg here callers calls w1) =
  written w1 ++
  flat_map (fun call => log_trace cfg zapcore.InfoLevel logger.InfoColor call.2
                          (here call.1 :: callers) w) calls.
Proof.
  revert w1. induction calls as [| call rest IH]; intros w1 Hc Hf; cbn [logged_all flat_map].
  - symmetry. apply app_nil_r.
  - rewrite IH by (rewrite ?clock_logged, ?write_failure_logged; assumption).
    rewrite written_logged, (log_trace_same _ _ _ _ _ w w1 Hc Hf), app_assoc. reflexivity.
Qed.

Lemma added_logged_all cfg here callers calls w :
  added w (logged_all cfg here callers calls w) =
  flat_map (fun call => log_trace cfg zapcore.InfoLevel logger.InfoColor call.2
                          (here call.1 :: callers) w) calls.
Proof.
  unfold added. rewrite (written_logged_all _ _ _ _ w w) by reflexivity.
  apply drop_app_length.
Qed.

(** Info calls in a row: each sink gets their records in the order of the
    calls, or none of them. *)
Lemma console_records_logged_all cfg here callers calls w :
  console_records w (logged_all cfg here callers calls w) =
  delivered (console_threshold cfg) (write_failure w Stderr)
    (map (fun call => console_record logger.InfoColor (info_entry w here callers call)) calls).
Proof.
  unfold console_records. rewrite added_logged_all.
  induction calls as [| call rest IH]; cbn [flat_map map].
  - unfold delivered. destruct (zapcore.Level_Enabled _ _), (write_failure w Stderr); reflexivity.
  - rewrite on_stream_app, filter_app, IH.
    rewrite <- added_logged. fold (console_records w
      (logged cfg zapcore.InfoLevel logger.InfoColor call.2 (here call.1 :: callers) w)).
    rewrite console_records_logged. unfold delivered, info_entry.
    destruct (zapcore.Level_Enabled _ _), (write_failure w Stderr); reflexivity.
Qed.

Lemma file_records_logged_all cfg here callers calls w :
  file_records cfg w (logged_all cfg here callers calls w) =
  delivered (file_threshold cfg) (write_failure w (file_stream cfg))
    (map (fun call => file_record (info_entry w here callers call)) calls).
Proof.
  unfold file_records. rewrite added_logged_all.
  induction calls as [| call rest IH]; cbn [flat_map map].
  - unfold delivered.
    destruct (zapcore.Level_Enabled _ _), (write_failure w (file_stream cfg)); reflexivity.
  - rewrite on_stream_app, filter_app, IH.
    rewrite <- added_logged. fold (file_records cfg w
      (logged cfg zapcore.InfoLevel logger.InfoColor call.2 (here call.1 :: callers) w)).
    rewrite file_records_logged. unfold delivered, info_entry.
    destruct (zapcore.Level_Enabled _ _), (write_failure w (file_stream cfg)); reflexivity.
Qed.

Lemma Info_built cfg msg stack w :
  zap.Info (built cfg) msg stack w =
  (Return tt, logged cfg zapcore.InfoLevel logger.InfoColor msg stack w).
Proof. unfold zap.Info. rewrite (log_colored _ _ logger.InfoColor) by reflexivity. reflexivity. Qed.

Lemma DisplayInfo_OnStart_built cfg lifecycle GetInfo here callers w :
  infofx.DisplayInfo_OnStart GetInfo
    {| infofx.Lifecycle := lifecycle; infofx.Logger := built cfg |} here callers w =
  (Return GetInfo.2, logged_all cfg here callers (info_lines GetInfo) w).
Proof.
  unfold infofx.DisplayInfo_OnStart, info_lines. cbn [infofx.Logger].
  destruct GetInfo as [info [err |]]; cbn [fst snd logged_all].
  - unfold mbind, M_bind. rewrite Info_built. reflexivity.
  - unfold mbind, M_bind. rewrite !Info_built. reflexivity.
Qed.

Lemma cleanup_OnStop_built cfg lifecycle here callers w :
  infofx.cleanup_OnStop
    {| infofx.Lifecycle := lifecycle; infofx.Logger := built cfg |} here callers w =
  (Return None, logged_all cfg here callers [shutdown_line] w).
Proof.
  unfold infofx.cleanup_OnStop, shutdown_line. cbn [infofx.Logger logged_all fst snd].
  unfold mbind, M_bind. rewrite Info_built. reflexivity.
Qed.

(** X13: [DisplayInfo] appends one hook, with an [OnStart] function only.
    In any world that function returns what [GetInfo] returned as error,
    never failing for a fault of the logger, and logs at info level the
    banner and then, when [GetInfo] gave no error, the name, platform,
    runtime, host name, build commit and build date, in this order; after
    an error of [GetInfo] it logs the banner alone.  Each sink gets all of
    these records, in order, when its threshold lets info through and its
    stream takes writes, and none of them else. *)
Theorem DisplayInfo_hook_logs (w0 w : World) (cfg : loggerfx.LoggerConfig)
    (p : infofx.InfoParams) (GetInfo : infofx.Info * option error)
    (here : Z -> runtime.Frame) (callers : list runtime.Frame) :
  (loggerfx.New (Some cfg) w0).1 = Return (Some (infofx.Logger p), None) ->
  let f := infofx.DisplayInfo_OnStart GetInfo p in
  infofx.DisplayInfo GetInfo p =
    infofx.Lifecycle p ++ [{| fx.OnStart := Some f; fx.OnStop := None |}] /\
  (f here callers w).1 = Return GetInfo.2 /\
  console_records w (f here callers w).2 =
    delivered (console_threshold cfg) (write_failure w Stderr)
      (map (fun call => console_record logger.InfoColor (info_entry w here callers call))
         (info_lines GetInfo)) /\
  file_records cfg w (f here callers w).2 =
    delivered (file_threshold cfg) (write_failure w (file_stream cfg))
      (map (fun call => file_record (info_entry w here callers call))
         (info_lines GetInfo)).
Proof.
  intros Hnew%New_returns_built. destruct p as [lifecycle s]. cbn [infofx.Logger] in Hnew.
  subst s. cbv zeta. split; [reflexivity |].
  rewrite DisplayInfo_OnStart_built. cbn [fst snd infofx.Lifecycle].
  rewrite console_records_logged_all, file_records_logged_all. auto.
Qed.

(** With both sinks from info, the start of the application leaves seven
    lines on the console and seven records in the file. *)
Lemma DisplayInfo_hook_logs_witness :
  let p := {| infofx.Lifecycle := []; infofx.Logger := built default_config |} in
  let w' := (infofx.DisplayInfo_OnStart (sample_info, None) p sample_here sample_callers
               open_world).2 in
  length (console_records open_world w') = 7%nat /\
  length (file_records default_config open_world w') = 7%nat.
Proof.
  destruct (DisplayInfo_hook_logs open_world open_world default_config
              {| infofx.Lifecycle := []; infofx.Logger := built default_config |}
              (sample_info, None) sample_here sample_callers)
    as (_ & _ & Hconsole & Hfile); [reflexivity |].
  cbv zeta. rewrite Hconsole, Hfile. split; reflexivity.
Defined.

(** X14: [cleanup] appends one hook, with an [OnStop] function only.  In
    any world that function returns no error and logs one message at info
    level, the notice of the shutdown, which each sink gets when its
    threshold lets info through and its stream takes writes. *)
Theorem cleanup_hook_logs (w0 w : World) (cfg : loggerfx.LoggerConfig)
    (p : infofx.InfoParams) (here : Z -> runtime.Frame) (callers : list runtime.Frame) :
  (loggerfx.New (Some cfg) w0).1 = Return (Some (infofx.Logger p), None) ->
  let f := infofx.cleanup_OnStop p in
  let notice := info_entry w here callers shutdown_line in
  infofx.cleanup p =
    infofx.Lifecycle p ++ [{| fx.OnStart := None; fx.OnStop := Some f |}] /\
  (f here callers w).1 = Return None /\
  zapcore.Entry_Message notice = "Shutting down gracefully, press Ctrl+C again to force" /\
  console_records w (f here callers w).2 =
    delivered (console_threshold cfg) (write_failure w Stderr)
      [console_record logger.InfoColor notice] /\
  file_records cfg w (f here callers w).2 =
    delivered (file_threshold cfg) (write_failure w (file_stream cfg))
      [file_record notice].
Proof.
  intros Hnew%New_returns_built. destruct p as [lifecycle s]. cbn [infofx.Logger] in Hnew.
  subst s. cbv zeta. split; [reflexivity |].
  rewrite cleanup_OnStop_built. cbn [fst snd infofx.Lifecycle].
  rewrite console_records_logged_all, file_records_logged_all. auto.
Qed.

(** With the file sink from error and the console sink from debug, the
    notice of the shutdown is one line on the console and nothing in the
    file. *)
Lemma cleanup_hook_logs_witness :
  let p := {| infofx.Lifecycle := []; infofx.Logger := built sample_config |} in
  let w' := (infofx.cleanup_OnStop p sample_here sample_callers open_world).2 in
  length (console_records open_world w') = 1%nat /\
  file_records sample_config open_world w' = [].
Proof.
  destruct (cleanup_hook_logs open_world open_world sample_config
              {| infofx.Lifecycle := []; infofx.Logger := built sample_config |}
              sample_here sample_callers)
    as (_ & _ & _ & Hconsole & Hfile); [reflexivity |].
  cbv zeta. rewrite Hconsole, Hfile. split; reflexivity.
Defined.

(** *** Sanity checks of the library functions *)

(** A stack trace, attached above [FatalLevel] only, leaves out the last
    frame of the stack. *)
Example stack_trace_sample :
  zapcore.Entry_Stack (entry_of 7 sample_time "boom" sample_stack) =
    "main.main" +:+ zap.newline +:+ zap.tab +:+ "/home/dev/go/src/app/main.go:17" /\
  zapcore.Entry_Stack (entry_of zapcore.FatalLevel sample_time "boom" sample_stack) = "".
Proof. split; vm_compute; reflexivity. Qed.

Example safeAddString_sample :
  zapcore.safeAddString
    ("a" +:+ String zapcore.quote "b" +:+ String (ascii_of_nat 10) stray_byte_ff) =
  "a" +:+ String zapcore.backslash (String zapcore.quote "b") +:+
  String zapcore.backslash "n" +:+ String zapcore.backslash "ufffd".
Proof. vm_compute. reflexivity. Qed.

Example UnixNano_sample : time.UnixNano sample_time_later = 1793433907000000001.
Proof. reflexivity. Qed.

Example path_Join_sample :
  path.Join ["/var//log/./app/"; "server.log"] = "/var/log/app/server.log".
Proof. vm_compute. reflexivity. Qed.

Example path_Join_dotdot : path.Join ["a/../.."; "server.log"] = "../server.log".
Proof. vm_compute. reflexivity. Qed.

Example Format_RFC3339_sample :
  time.Format_RFC3339
    {| time.Year := 2026; time.Month := 10; time.Day := 31; time.Hour := 9;
       time.Minute := 5; time.Second := 7; time.Nanosecond := 0;
       time.Offset := -19800 |}
  = "2026-10-31T09:05:07-05:30".
Proof. vm_compute. reflexivity. Qed.

Example TrimmedPath_root_file :
  zapcore.TrimmedPath
    {| zapcore.Defined := true; zapcore.PC := 4242; zapcore.File := "/main.go";
       zapcore.Line := 12; zapcore.Function := "main.main" |} = "/main.go:12".
Proof. vm_compute. reflexivity. Qed.
